(** * ClangBackEnd::Document — a shallow embedding of clangdocument.cpp

    The development follows
    [src/tools/clangbackend/ipcsource/clangdocument.cpp]: a [Document] is a
    copyable handle (a [std::shared_ptr<DocumentData>]) onto state shared by
    all copies.  The shared [DocumentData] objects live in a heap, handles
    are nullable locations, and every member function is a computation in a
    small state-and-exception monad over the [World] in which the backend
    runs (heap, watched files, unsaved files, file system, steady clock). *)

From Stdlib Require Import ZArith.
From stdpp Require Import base option gmap strings list.

Local Open Scope Z_scope.

(** ** Plain data *)

Abbreviation Utf8String := string (only parsing).
Abbreviation Utf8StringVector := (list string) (only parsing).

(** [std::chrono::steady_clock::time_point]: a signed tick count. *)
Abbreviation time_point := Z (only parsing).

(** [CXTranslationUnit] and [CXIndex] are opaque libclang pointers; [None]
    is [nullptr]. *)
Abbreviation CXTranslationUnit := (option positive) (only parsing).
Abbreviation CXIndex := (option positive) (only parsing).

(** Locations of [DocumentData] objects owned through [shared_ptr]. *)
Abbreviation loc := positive (only parsing).

Module ProjectPart.
(** Modelled from the spec: [ProjectPart] (projectpart.h is not among the
    sources).  The spec describes it as a value copied into the document
    that supplies an identifier, the compiler arguments and a last-change
    timestamp. *)
Record t := mk {
  projectPartId : Utf8String;
  arguments : Utf8StringVector;
  lastChangeTimePoint : time_point
}.
End ProjectPart.

Module UnsavedFiles.
(** Modelled from the spec: the unsaved-edit overrides, an ordered
    sequence of (path, content, revision) (unsavedfiles.h is not among the
    sources). *)
Definition t : Type := list (Utf8String * Utf8String * N).
End UnsavedFiles.

Module DocumentData.
(** [class DocumentData].  The [Documents &documents] back reference is
    the single document set of the [World] below. *)
Record t := mk {
  filePath : Utf8String;
  fileArguments : Utf8StringVector;
  projectPart : ProjectPart.t;
  lastProjectPartChangeTimePoint : time_point;
  translationUnit : CXTranslationUnit;
  index : CXIndex;
  dependedFilePaths : gset string;
  documentRevision : N;
  needsToBeReparsedChangeTimePoint : time_point;
  hasParseOrReparseFailed : bool;
  needsToBeReparsed : bool;
  isUsedByCurrentEditor : bool;
  isVisibleInEditor : bool
}.

Definition set_lastProjectPartChangeTimePoint (v : time_point) (x : t) : t :=
  mk (filePath x) (fileArguments x) (projectPart x) v
     (translationUnit x) (index x) (dependedFilePaths x) (documentRevision x)
     (needsToBeReparsedChangeTimePoint x) (hasParseOrReparseFailed x)
     (needsToBeReparsed x) (isUsedByCurrentEditor x) (isVisibleInEditor x).

Definition set_translationUnit (v : CXTranslationUnit) (x : t) : t :=
  mk (filePath x) (fileArguments x) (projectPart x)
     (lastProjectPartChangeTimePoint x)
     v (index x) (dependedFilePaths x) (documentRevision x)
     (needsToBeReparsedChangeTimePoint x) (hasParseOrReparseFailed x)
     (needsToBeReparsed x) (isUsedByCurrentEditor x) (isVisibleInEditor x).

Definition set_index (v : CXIndex) (x : t) : t :=
  mk (filePath x) (fileArguments x) (projectPart x)
     (lastProjectPartChangeTimePoint x)
     (translationUnit x) v (dependedFilePaths x) (documentRevision x)
     (needsToBeReparsedChangeTimePoint x) (hasParseOrReparseFailed x)
     (needsToBeReparsed x) (isUsedByCurrentEditor x) (isVisibleInEditor x).

Definition set_dependedFilePaths (v : gset string) (x : t) : t :=
  mk (filePath x) (fileArguments x) (projectPart x)
     (lastProjectPartChangeTimePoint x)
     (translationUnit x) (index x) v (documentRevision x)
     (needsToBeReparsedChangeTimePoint x) (hasParseOrReparseFailed x)
     (needsToBeReparsed x) (isUsedByCurrentEditor x) (isVisibleInEditor x).

Definition set_documentRevision (v : N) (x : t) : t :=
  mk (filePath x) (fileArguments x) (projectPart x)
     (lastProjectPartChangeTimePoint x)
     (translationUnit x) (index x) (dependedFilePaths x) v
     (needsToBeReparsedChangeTimePoint x) (hasParseOrReparseFailed x)
     (needsToBeReparsed x) (isUsedByCurrentEditor x) (isVisibleInEditor x).

Definition set_needsToBeReparsedChangeTimePoint (v : time_point) (x : t) : t :=
  mk (filePath x) (fileArguments x) (projectPart x)
     (lastProjectPartChangeTimePoint x)
     (translationUnit x) (index x) (dependedFilePaths x) (documentRevision x)
     v (hasParseOrReparseFailed x)
     (needsToBeReparsed x) (isUsedByCurrentEditor x) (isVisibleInEditor x).

Definition set_hasParseOrReparseFailed (v : bool) (x : t) : t :=
  mk (filePath x) (fileArguments x) (projectPart x)
     (lastProjectPartChangeTimePoint x)
     (translationUnit x) (index x) (dependedFilePaths x) (documentRevision x)
     (needsToBeReparsedChangeTimePoint x) v
     (needsToBeReparsed x) (isUsedByCurrentEditor x) (isVisibleInEditor x).

Definition set_needsToBeReparsed (v : bool) (x : t) : t :=
  mk (filePath x) (fileArguments x) (projectPart x)
     (lastProjectPartChangeTimePoint x)
     (translationUnit x) (index x) (dependedFilePaths x) (documentRevision x)
     (needsToBeReparsedChangeTimePoint x) (hasParseOrReparseFailed x)
     v (isUsedByCurrentEditor x) (isVisibleInEditor x).

Definition set_isUsedByCurrentEditor (v : bool) (x : t) : t :=
  mk (filePath x) (fileArguments x) (projectPart x)
     (lastProjectPartChangeTimePoint x)
     (translationUnit x) (index x) (dependedFilePaths x) (documentRevision x)
     (needsToBeReparsedChangeTimePoint x) (hasParseOrReparseFailed x)
     (needsToBeReparsed x) v (isVisibleInEditor x).

Definition set_isVisibleInEditor (v : bool) (x : t) : t :=
  mk (filePath x) (fileArguments x) (projectPart x)
     (lastProjectPartChangeTimePoint x)
     (translationUnit x) (index x) (dependedFilePaths x) (documentRevision x)
     (needsToBeReparsedChangeTimePoint x) (hasParseOrReparseFailed x)
     (needsToBeReparsed x) (isUsedByCurrentEditor x) v.
End DocumentData.

(** ** The world the backend runs in *)

Record World := mkWorld {
  (** the live [DocumentData] objects, shared by all handles onto them *)
  heap : gmap positive DocumentData.t;
  (** the file paths the document set ([Documents]) watches *)
  watchedFiles : gset string;
  (** what [Documents::unsavedFiles()] currently returns *)
  unsavedFiles : UnsavedFiles.t;
  (** the files that exist on disk ([QFileInfo::exists]) *)
  fileSystem : gset string;
  (** the last reading of [std::chrono::steady_clock] *)
  clock : time_point;
  (** by how much the clock will have advanced at its next readings *)
  ticks : list N
}.

Definition set_heap (v : gmap positive DocumentData.t) (w : World) : World :=
  mkWorld v (watchedFiles w) (unsavedFiles w) (fileSystem w) (clock w) (ticks w).

Definition set_watchedFiles (v : gset string) (w : World) : World :=
  mkWorld (heap w) v (unsavedFiles w) (fileSystem w) (clock w) (ticks w).

Definition set_clock (c : time_point) (ts : list N) (w : World) : World :=
  mkWorld (heap w) (watchedFiles w) (unsavedFiles w) (fileSystem w) c ts.

(** ** Exceptions and the computation monad *)

Inductive Exception :=
| DocumentIsNullException
| DocumentFileDoesNotExistException (filePath : Utf8String).

(** A call returns a value, throws (the state reached so far is kept), or
    has no defined behaviour: it dereferenced an empty [shared_ptr]. *)
Inductive Outcome (A : Type) :=
| Returns (a : A) (w : World)
| Throws (e : Exception) (w : World)
| Undefined.
Arguments Returns {A} a w.
Arguments Throws {A} e w.
Arguments Undefined {A}.

Definition M (A : Type) : Type := World -> Outcome A.

#[global] Instance M_ret : MRet M := fun A a w => Returns a w.

#[global] Instance M_bind : MBind M := fun A B f m w =>
  match m w with
  | Returns a w' => f a w'
  | Throws e w' => Throws e w'
  | Undefined => Undefined
  end.

Definition throw {A} (e : Exception) : M A := fun w => Throws e w.

Definition when (b : bool) (m : M unit) : M unit :=
  if b then m else mret tt.

(** ** Collaborators *)

(** [std::chrono::steady_clock::now()]: the clock never runs backwards. *)
Definition steady_clock_now : M time_point := fun w =>
  let c := clock w + Z.of_N (hd 0%N (ticks w)) in
  Returns c (set_clock c (tl (ticks w)) w).

(** [QFileInfo::exists(path)]. *)
Definition QFileInfo_exists (path : Utf8String) : M bool := fun w =>
  Returns (bool_decide (path ∈ fileSystem w)) w.

Module Documents.
(** Modelled from the spec: [Documents::addWatchedFiles] (clangdocuments.cpp
    is not among the sources) unions the paths into the global watch
    set. *)
Definition addWatchedFiles (filePaths : gset string) : M unit := fun w =>
  Returns tt (set_watchedFiles (watchedFiles w ∪ filePaths) w).

(** Modelled from the spec: [Documents::unsavedFiles] is a passthrough
    query returning the current overrides. *)
Definition unsavedFiles : M UnsavedFiles.t := fun w =>
  Returns (unsavedFiles w) w.
End Documents.

(** ** Values exchanged with the translation-unit updater *)

Module TranslationUnitUpdateInput.
(** The fields [Document::createUpdateInput] fills in. *)
Record t := mk {
  parseNeeded : bool;
  reparseNeeded : bool;
  needsToBeReparsedChangeTimePoint : time_point;
  filePath : Utf8String;
  fileArguments : Utf8StringVector;
  unsavedFiles : UnsavedFiles.t;
  projectId : Utf8String;
  projectArguments : Utf8StringVector
}.
End TranslationUnitUpdateInput.

Module TranslationUnitUpdateResult.
(** The fields [Document::incorporateUpdaterResult] reads. *)
Record t := mk {
  hasParseOrReparseFailed : bool;
  parseTimePointIsSet : bool;
  parseTimePoint : time_point;
  reparsed : bool;
  needsToBeReparsedChangeTimePoint : time_point;
  dependedOnFilePaths : gset string
}.
End TranslationUnitUpdateResult.

Module TranslationUnit.
(** [TranslationUnit(filePath, index, cxTranslationUnit)]. *)
Record t := mk {
  filePath : Utf8String;
  index : CXIndex;
  cxTranslationUnit : CXTranslationUnit
}.
End TranslationUnit.

Module TranslationUnitUpdater.
(** [TranslationUnitUpdater(index, cxTranslationUnit, updateInput)]. *)
Record t := mk {
  index : CXIndex;
  cxTranslationUnit : CXTranslationUnit;
  updateInput : TranslationUnitUpdateInput.t
}.
End TranslationUnitUpdater.

Module FileContainer.
(** [FileContainer(filePath, projectPartId, unsavedFileContent,
    hasUnsavedFileContent, documentRevision)]. *)
Record t := mk {
  filePath : Utf8String;
  projectPartId : Utf8String;
  unsavedFileContent : Utf8String;
  hasUnsavedFileContent : bool;
  documentRevision : N
}.
End FileContainer.

(** What the external parser hands back: the update result together with the
    index and translation unit it leaves behind (a [TranslationUnit] holds
    references to both members of the [DocumentData]). *)
Definition Engine : Type :=
  TranslationUnit.t -> TranslationUnitUpdateInput.t ->
  TranslationUnitUpdateResult.t * (CXIndex * CXTranslationUnit).

(** ** The document handle and its member functions *)

Inductive FileExistsCheck := CheckIfFileExists | DoNotCheckIfFileExists.

#[global] Instance FileExistsCheck_eq_dec : EqDecision FileExistsCheck.
Proof. solve_decision. Defined.

Module Document.
(** [class Document]: its only member is [std::shared_ptr<DocumentData> d];
    [None] is the empty pointer. *)
Record t := mk { d : option positive }.

(** Reading through [d->]: the object [d] points to. *)
Definition deref (this : t) : M DocumentData.t := fun w =>
  match d this with
  | None => Undefined
  | Some l =>
      match heap w !! l with
      | Some x => Returns x w
      | None => Undefined
      end
  end.

(** Writing through [d->]: [d->field = v], given as the field's setter. *)
Definition assign (this : t) (f : DocumentData.t -> DocumentData.t) : M unit :=
  fun w =>
  match d this with
  | None => Undefined
  | Some l =>
      match heap w !! l with
      | Some x => Returns tt (set_heap (<[l := f x]> (heap w)) w)
      | None => Undefined
      end
  end.

(** [DocumentData::DocumentData]: both time points start at the same
    reading of the clock and the dependencies at the file itself. *)
Definition DocumentData_ctor (filePath : Utf8String)
    (projectPart : ProjectPart.t) (fileArguments : Utf8StringVector)
    : M DocumentData.t :=
  now ← steady_clock_now;
  mret (DocumentData.mk filePath fileArguments projectPart now None None
          {[ filePath ]} 0%N now false false false false).

(** [std::make_shared]: a location no live object occupies.  Objects are
    never taken out of the heap; one that no handle points to any more
    cannot be observed. *)
Definition make_shared (x : DocumentData.t) : M positive := fun w =>
  let l := fresh (dom (heap w)) in
  Returns l (set_heap (<[l := x]> (heap w)) w).

(** [!d]: whether the pointer is empty. *)
Definition isNull (this : t) : M bool :=
  mret (match d this with Some _ => false | None => true end).

Definition checkIfNull (this : t) : M unit :=
  null ← isNull this;
  if (null : bool) then throw DocumentIsNullException else mret tt.

Definition fileExists (this : t) : M bool :=
  x ← deref this;
  QFileInfo_exists (DocumentData.filePath x).

Definition checkIfFileExists (this : t) : M unit :=
  found ← fileExists this;
  if negb found
  then x ← deref this;
       throw (DocumentFileDoesNotExistException (DocumentData.filePath x))
  else mret tt.

(** [Document::Document(filePath, projectPart, fileArguments, documents,
    fileExistsCheck)]. *)
Definition ctor (filePath : Utf8String) (projectPart : ProjectPart.t)
    (fileArguments : Utf8StringVector) (fileExistsCheck : FileExistsCheck)
    : M t :=
  x ← DocumentData_ctor filePath projectPart fileArguments;
  l ← make_shared x;
  let this := mk (Some l) in
  when (bool_decide (fileExistsCheck = CheckIfFileExists))
       (checkIfFileExists this);;
  mret this.

(** [!isNull() && fileExists() && !d->hasParseOrReparseFailed], evaluated
    left to right and cut short at the first false operand. *)
Definition isIntact (this : t) : M bool :=
  null ← isNull this;
  if negb null then
    found ← fileExists this;
    if (found : bool) then
      x ← deref this;
      mret (negb (DocumentData.hasParseOrReparseFailed x))
    else mret false
  else mret false.

Definition filePath (this : t) : M Utf8String :=
  checkIfNull this;;
  x ← deref this;
  mret (DocumentData.filePath x).

Definition fileArguments (this : t) : M Utf8StringVector :=
  checkIfNull this;;
  x ← deref this;
  mret (DocumentData.fileArguments x).

Definition fileContainer (this : t) : M FileContainer.t :=
  checkIfNull this;;
  x ← deref this;
  mret (FileContainer.mk (DocumentData.filePath x)
          (ProjectPart.projectPartId (DocumentData.projectPart x))
          "" false (DocumentData.documentRevision x)).

Definition projectPartId (this : t) : M Utf8String :=
  checkIfNull this;;
  x ← deref this;
  mret (ProjectPart.projectPartId (DocumentData.projectPart x)).

Definition projectPart (this : t) : M ProjectPart.t :=
  checkIfNull this;;
  x ← deref this;
  mret (DocumentData.projectPart x).

Definition lastProjectPartChangeTimePoint (this : t) : M time_point :=
  checkIfNull this;;
  x ← deref this;
  mret (DocumentData.lastProjectPartChangeTimePoint x).

Definition isProjectPartOutdated (this : t) : M bool :=
  checkIfNull this;;
  x ← deref this;
  mret (ProjectPart.lastChangeTimePoint (DocumentData.projectPart x)
          >=? DocumentData.lastProjectPartChangeTimePoint x).

Definition documentRevision (this : t) : M N :=
  checkIfNull this;;
  x ← deref this;
  mret (DocumentData.documentRevision x).

Definition setDocumentRevision (this : t) (revision : N) : M unit :=
  checkIfNull this;;
  assign this (DocumentData.set_documentRevision revision).

Definition isUsedByCurrentEditor (this : t) : M bool :=
  checkIfNull this;;
  x ← deref this;
  mret (DocumentData.isUsedByCurrentEditor x).

Definition setIsUsedByCurrentEditor (this : t) (isUsedByCurrentEditor : bool)
    : M unit :=
  checkIfNull this;;
  assign this (DocumentData.set_isUsedByCurrentEditor isUsedByCurrentEditor).

Definition isVisibleInEditor (this : t) : M bool :=
  checkIfNull this;;
  x ← deref this;
  mret (DocumentData.isVisibleInEditor x).

Definition setIsVisibleInEditor (this : t) (isVisibleInEditor : bool)
    : M unit :=
  checkIfNull this;;
  assign this (DocumentData.set_isVisibleInEditor isVisibleInEditor).

Definition isNeededReparseChangeTimePoint (this : t) : M time_point :=
  checkIfNull this;;
  x ← deref this;
  mret (DocumentData.needsToBeReparsedChangeTimePoint x).

Definition isNeedingReparse (this : t) : M bool :=
  checkIfNull this;;
  x ← deref this;
  mret (DocumentData.needsToBeReparsed x).

Definition setDirty (this : t) : M unit :=
  now ← steady_clock_now;
  assign this (DocumentData.set_needsToBeReparsedChangeTimePoint now);;
  assign this (DocumentData.set_needsToBeReparsed true).

Definition setDirtyIfProjectPartIsOutdated (this : t) : M unit :=
  outdated ← isProjectPartOutdated this;
  when outdated (setDirty this).

Definition isMainFileAndExistsOrIsOtherFile (this : t) (filePath : Utf8String)
    : M bool :=
  x ← deref this;
  if bool_decide (filePath = DocumentData.filePath x)
  then QFileInfo_exists (DocumentData.filePath x)
  else mret true.

(** [contains(filePath) && isMainFileAndExistsOrIsOtherFile(filePath)]: the
    second operand runs only when the first holds. *)
Definition setDirtyIfDependencyIsMet (this : t) (filePath : Utf8String)
    : M unit :=
  x ← deref this;
  met ← (if bool_decide (filePath ∈ DocumentData.dependedFilePaths x)
         then isMainFileAndExistsOrIsOtherFile this filePath
         else mret false);
  when met (setDirty this).

Definition createUpdateInput (this : t) : M TranslationUnitUpdateInput.t :=
  parseNeeded ← isProjectPartOutdated this;
  reparseNeeded ← isNeedingReparse this;
  x ← deref this;
  filePath' ← filePath this;
  fileArguments' ← fileArguments this;
  unsavedFiles' ← (deref this;; Documents.unsavedFiles);
  part ← projectPart this;
  part' ← projectPart this;
  mret (TranslationUnitUpdateInput.mk parseNeeded reparseNeeded
          (DocumentData.needsToBeReparsedChangeTimePoint x)
          filePath' fileArguments' unsavedFiles'
          (ProjectPart.projectPartId part) (ProjectPart.arguments part')).

Definition createUpdater (this : t) : M TranslationUnitUpdater.t :=
  updateInput ← createUpdateInput this;
  x ← deref this;
  mret (TranslationUnitUpdater.mk (DocumentData.index x)
          (DocumentData.translationUnit x) updateInput).

Definition setHasParseOrReparseFailed (this : t) (hasFailed : bool) : M unit :=
  assign this (DocumentData.set_hasParseOrReparseFailed hasFailed).

Definition incorporateUpdaterResult (this : t)
    (result : TranslationUnitUpdateResult.t) : M unit :=
  assign this (DocumentData.set_hasParseOrReparseFailed
                 (TranslationUnitUpdateResult.hasParseOrReparseFailed result));;
  x ← deref this;
  if DocumentData.hasParseOrReparseFailed x then
    assign this (DocumentData.set_needsToBeReparsed false)
  else
    when (TranslationUnitUpdateResult.parseTimePointIsSet result)
         (assign this (DocumentData.set_lastProjectPartChangeTimePoint
                         (TranslationUnitUpdateResult.parseTimePoint result)));;
    when (TranslationUnitUpdateResult.parseTimePointIsSet result
          || TranslationUnitUpdateResult.reparsed result)
         (assign this (DocumentData.set_dependedFilePaths
                         (TranslationUnitUpdateResult.dependedOnFilePaths result)));;
    x1 ← deref this;
    Documents.addWatchedFiles (DocumentData.dependedFilePaths x1);;
    x2 ← deref this;
    when (TranslationUnitUpdateResult.reparsed result
          && bool_decide
               (TranslationUnitUpdateResult.needsToBeReparsedChangeTimePoint result
                = DocumentData.needsToBeReparsedChangeTimePoint x2))
         (assign this (DocumentData.set_needsToBeReparsed false)).

Definition translationUnit (this : t) : M TranslationUnit.t :=
  checkIfNull this;;
  x ← deref this;
  mret (TranslationUnit.mk (DocumentData.filePath x) (DocumentData.index x)
          (DocumentData.translationUnit x)).

(** Running the external parser on a [TranslationUnit] of this document:
    the index and translation unit it leaves behind are those of the
    [DocumentData], which the [TranslationUnit] refers to. *)
Definition run (engine : Engine) (this : t) (unit : TranslationUnit.t)
    (updateInput : TranslationUnitUpdateInput.t)
    : M TranslationUnitUpdateResult.t :=
  let '(result, (index', translationUnit')) := engine unit updateInput in
  assign this (DocumentData.set_index index');;
  assign this (DocumentData.set_translationUnit translationUnit');;
  mret result.

Section Updater.
(** [TranslationUnit::parse] and [TranslationUnit::reparse]
    (clangtranslationunit.cpp is not among the sources). *)
Variables TranslationUnit_parse TranslationUnit_reparse : Engine.

Definition parse (this : t) : M unit :=
  checkIfNull this;;
  updateInput ← createUpdateInput this;
  unit ← translationUnit this;
  result ← run TranslationUnit_parse this unit updateInput;
  incorporateUpdaterResult this result.

Definition reparse (this : t) : M unit :=
  checkIfNull this;;
  updateInput ← createUpdateInput this;
  unit ← translationUnit this;
  result ← run TranslationUnit_reparse this unit updateInput;
  incorporateUpdaterResult this result.
End Updater.

Definition dependedFilePaths (this : t) : M (gset string) :=
  checkIfNull this;;
  checkIfFileExists this;;
  x ← deref this;
  mret (DocumentData.dependedFilePaths x).

(** [operator==(first, second)]. *)
Definition equal (first second : t) : M bool :=
  a ← filePath first;
  b ← filePath second;
  if bool_decide (a = b) then
    p ← projectPartId first;
    q ← projectPartId second;
    mret (bool_decide (p = q))
  else mret false.

(** The backing state a handle gives access to in a world, if any: what
    the claims below call the state of the document. *)
Definition data (this : t) (w : World) : option DocumentData.t :=
  l ← d this; heap w !! l.
End Document.

(** ** Special member functions

    Copying, moving and resetting change the handle itself, so they act on
    the [Document] objects of the program, a store from object names to
    handles; the shared [DocumentData] in the heap is not touched.  An
    operation on a name that denotes no object has no result. *)

Module Objects.
Abbreviation t := (gmap string Document.t) (only parsing).

(** [Document::Document(const Document &) = default]. *)
Definition copy_ctor (new other : string) (objs : gmap string Document.t)
    : option (gmap string Document.t) :=
  o ← objs !! other;
  Some (<[new := Document.mk (Document.d o)]> objs).

(** [Document &operator=(const Document &) = default]. *)
Definition copy_assign (this other : string) (objs : gmap string Document.t)
    : option (gmap string Document.t) :=
  o ← objs !! other;
  _ ← objs !! this;
  Some (<[this := Document.mk (Document.d o)]> objs).

(** [Document::Document(Document &&other) : d(std::move(other.d))]: the new
    pointer takes over the source's, which is left empty. *)
Definition move_ctor (new other : string) (objs : gmap string Document.t)
    : option (gmap string Document.t) :=
  o ← objs !! other;
  let objs1 := <[other := Document.mk None]> objs in
  Some (<[new := Document.mk (Document.d o)]> objs1).

(** [d = std::move(other.d)], which the standard defines as
    [shared_ptr(std::move(other.d)).swap(d)]: a temporary takes over the
    source's pointer, the source is left empty, and the temporary is then
    swapped with [d]. *)
Definition move_assign (this other : string) (objs : gmap string Document.t)
    : option (gmap string Document.t) :=
  o ← objs !! other;
  let temporary := Document.d o in
  let objs1 := <[other := Document.mk None]> objs in
  _ ← objs1 !! this;
  Some (<[this := Document.mk temporary]> objs1).

(** [Document::reset]: [d.reset()]. *)
Definition reset (this : string) (objs : gmap string Document.t)
    : option (gmap string Document.t) :=
  _ ← objs !! this;
  Some (<[this := Document.mk None]> objs).
End Objects.

(** ** Sample documents

    The scenario of the specification: [/a.cpp] in project [P1], depending
    on itself and on [/a.h], marked dirty at time 12. *)

Definition project_P1 : ProjectPart.t :=
  ProjectPart.mk "P1" ["-std=c++14"] 5.

Definition data_a_cpp : DocumentData.t :=
  DocumentData.mk "/a.cpp" ["-Wall"] project_P1 7 None None
    {[ "/a.cpp"; "/a.h" ]} 3%N 12 false true false false.

Definition sample_world : World :=
  mkWorld {[ 1%positive := data_a_cpp ]} {[ "/a.cpp"; "/a.h" ]} []
    {[ "/a.cpp"; "/a.h" ]} 12 [3%N; 0%N].

(** The same world after [/a.cpp] was deleted from disk. *)
Definition world_without_a_cpp : World :=
  mkWorld {[ 1%positive := data_a_cpp ]} {[ "/a.cpp"; "/a.h" ]} []
    {[ "/a.h" ]} 12 [3%N; 0%N].

Definition document_a : Document.t := Document.mk (Some 1%positive).

(** A document last synced at time 5, the very time point at which its
    project part last changed. *)
Definition data_in_step : DocumentData.t :=
  DocumentData.mk "/b.cpp" [] project_P1 5 None None {[ "/b.cpp" ]} 0%N 5
    false false false false.

Definition world_in_step : World :=
  mkWorld {[ 1%positive := data_in_step ]} ∅ [] {[ "/b.cpp" ]} 5 [].

Definition null_document : Document.t := Document.mk None.

(** A reparse that was requested at time 12 and found one more included
    file. *)
Definition reparse_result : TranslationUnitUpdateResult.t :=
  TranslationUnitUpdateResult.mk false false 0 true 12
    {[ "/a.cpp"; "/a.h"; "/b.h" ]}.

(** A failed parse. *)
Definition failed_result : TranslationUnitUpdateResult.t :=
  TranslationUnitUpdateResult.mk true false 0 false 0 ∅.

(** A successful fresh parse finished at time 20: no reparse happened. *)
Definition parse_result : TranslationUnitUpdateResult.t :=
  TranslationUnitUpdateResult.mk false true 20 false 0
    {[ "/a.cpp"; "/a.h"; "/b.h" ]}.

(** A successful update that had nothing to do: neither a parse nor a
    reparse happened, and no dependencies are reported. *)
Definition idle_result : TranslationUnitUpdateResult.t :=
  TranslationUnitUpdateResult.mk false false 0 false 0 ∅.

(** A parser that always parses afresh and succeeds. *)
Definition parsing_engine : Engine := fun _ _ =>
  (parse_result, (Some 1%positive, Some 2%positive)).

(** Two [Document] objects of a program: [a] holds the sample document and
    [b] is empty. *)
Definition sample_objects : gmap string Document.t :=
  {[ "a" := document_a; "b" := null_document ]}.



(** A world with a second document, [/b.cpp], next to the sample one. *)
Definition two_documents : World :=
  mkWorld {[ 1%positive := data_a_cpp; 2%positive := data_in_step ]}
    {[ "/a.cpp"; "/a.h" ]} [] {[ "/a.cpp"; "/a.h"; "/b.cpp" ]} 12 [3%N; 0%N].

Definition document_b : Document.t := Document.mk (Some 2%positive).

(** ** Derived notions used in the statements *)

(** The fields of a document after an update result was incorporated, as
    one value: the writes of [Document::incorporateUpdaterResult] applied in
    their order. *)
Definition incorporated (result : TranslationUnitUpdateResult.t)
    (x : DocumentData.t) : DocumentData.t :=
  let x0 := DocumentData.set_hasParseOrReparseFailed
              (TranslationUnitUpdateResult.hasParseOrReparseFailed result) x in
  if TranslationUnitUpdateResult.hasParseOrReparseFailed result then
    DocumentData.set_needsToBeReparsed false x0
  else
    let x1 := if TranslationUnitUpdateResult.parseTimePointIsSet result
              then DocumentData.set_lastProjectPartChangeTimePoint
                     (TranslationUnitUpdateResult.parseTimePoint result) x0
              else x0 in
    let x2 := if TranslationUnitUpdateResult.parseTimePointIsSet result
                 || TranslationUnitUpdateResult.reparsed result
              then DocumentData.set_dependedFilePaths
                     (TranslationUnitUpdateResult.dependedOnFilePaths result) x1
              else x1 in
    if TranslationUnitUpdateResult.reparsed result
       && bool_decide
            (TranslationUnitUpdateResult.needsToBeReparsedChangeTimePoint result
             = DocumentData.needsToBeReparsedChangeTimePoint x2)
    then DocumentData.set_needsToBeReparsed false x2
    else x2.

(** No document carries a dirty stamp later than the last reading of the
    clock. *)
Definition stamps_in_past (w : World) : Prop :=
  forall l x, heap w !! l = Some x ->
              DocumentData.needsToBeReparsedChangeTimePoint x <= clock w.

(** ** Proof support *)

Lemma data_live (this : Document.t) (w : World) (x : DocumentData.t) :
  Document.data this w = Some x <->
  exists l, Document.d this = Some l /\ heap w !! l = Some x.
Proof.
  unfold Document.data. destruct (Document.d this) as [l|]; cbn.
  - split; [intros H; exists l; auto | intros (l' & [= <-] & H); exact H].
  - split; [discriminate | intros (l' & [=] & _)].
Qed.

(** Unfolding the member functions down to heap lookups. *)
Ltac unfold_members :=
  unfold Document.parse, Document.reparse, Document.run,
    Document.createUpdater, Document.dependedFilePaths, Document.equal,
    Document.createUpdateInput, Document.setDirtyIfProjectPartIsOutdated,
    Document.setDirtyIfDependencyIsMet,
    Document.isMainFileAndExistsOrIsOtherFile,
    Document.incorporateUpdaterResult, Document.setHasParseOrReparseFailed,
    Document.translationUnit, Document.setDirty, Document.isIntact,
    Document.filePath, Document.fileArguments, Document.fileContainer,
    Document.projectPartId, Document.projectPart,
    Document.lastProjectPartChangeTimePoint, Document.isProjectPartOutdated,
    Document.documentRevision, Document.setDocumentRevision,
    Document.isUsedByCurrentEditor, Document.setIsUsedByCurrentEditor,
    Document.isVisibleInEditor, Document.setIsVisibleInEditor,
    Document.isNeededReparseChangeTimePoint, Document.isNeedingReparse,
    Document.checkIfFileExists, Document.fileExists, Document.checkIfNull,
    Document.isNull, Document.deref, Document.assign,
    Documents.addWatchedFiles, Documents.unsavedFiles,
    QFileInfo_exists, steady_clock_now, throw, when.

Ltac crunch :=
  unfold mbind, M_bind, mret, M_ret;
  cbn [heap set_heap set_watchedFiles set_clock watchedFiles unsavedFiles
       fileSystem clock ticks Document.d negb andb orb].

(** Running a member function on a live document: every heap lookup at the
    document's location is resolved from the context or from the last
    write. *)
Ltac exec :=
  unfold_members;
  repeat (crunch;
          rewrite ?lookup_insert_eq;
          try match goal with
              | H : heap ?w !! ?l = _ |- context [heap ?w !! ?l] =>
                  rewrite H
              end).

(** Observing the state of a live document after a run. *)
Ltac observe :=
  unfold Document.data;
  cbn [Document.d mbind option_bind heap set_heap set_watchedFiles set_clock
       watchedFiles unsavedFiles fileSystem clock ticks];
  rewrite ?lookup_insert_eq.

(** Entering a proof about a live document. *)
Ltac live this H :=
  let l := fresh "l" in
  let Hd := fresh "Hd" in
  let Hx := fresh "Hx" in
  apply data_live in H; destruct H as (l & Hd & Hx);
  destruct this as [d0]; cbn in Hd; subst d0.

(** A document constructed without the existence check: it is live, not
    dirty, has not failed, depends on its own file only, and both its time
    points are the reading of the clock at construction. *)
Lemma ctor_fresh (filePath : Utf8String) (projectPart : ProjectPart.t)
    (fileArguments : Utf8StringVector) (w : World) :
  exists this w' now,
    Document.ctor filePath projectPart fileArguments DoNotCheckIfFileExists w
    = Returns this w'
    /\ Document.data this w
       = None
    /\ Document.data this w'
       = Some (DocumentData.mk filePath fileArguments projectPart now None None
                 {[ filePath ]} 0%N now false false false false)
    /\ clock w <= now.
Proof.
  unfold Document.ctor, Document.DocumentData_ctor, Document.make_shared,
    steady_clock_now, when.
  crunch. cbn [bool_decide decide_rel].
  rewrite bool_decide_eq_false_2 by discriminate. crunch.
  do 3 eexists. split; [reflexivity|]. observe.
  split; [|split; [reflexivity|lia]].
  apply not_elem_of_dom, is_fresh.
Qed.

(** ** The claims *)

(** C3. A document is intact exactly when it is not null, its file exists
    on disk and its last parse or reparse did not fail; so an intact
    document is not null, its file exists and it has no parse failure. *)
Theorem isIntact_iff (this : Document.t) (w : World) :
  (Document.isIntact this w = Returns true w <->
   exists x, Document.data this w = Some x
             /\ DocumentData.filePath x ∈ fileSystem w
             /\ DocumentData.hasParseOrReparseFailed x = false)
  /\ (Document.isIntact this w = Returns true w ->
      Document.isNull this w = Returns false w
      /\ Document.fileExists this w = Returns true w
      /\ exists x, Document.data this w = Some x
                   /\ DocumentData.hasParseOrReparseFailed x = false)
  /\ (forall b w', Document.isIntact this w = Returns b w' -> w' = w).
Proof.
  destruct this as [[l|]]; unfold Document.data;
    cbn [Document.d mbind option_bind].
  - destruct (heap w !! l) as [x|] eqn:Hx; exec.
    + case_bool_decide as Hf; exec.
      * destruct (DocumentData.hasParseOrReparseFailed x) eqn:Hp; cbn.
        -- repeat split; try discriminate; try congruence.
           intros (x' & Hxx' & _ & Hp'). congruence.
        -- repeat split; eauto; congruence.
      * repeat split; try discriminate; try congruence.
        intros (x' & Hxx' & Hf' & _). congruence.
    + repeat split; try discriminate.
      intros (x' & Hxx' & _). discriminate.
  - exec. repeat split; try discriminate; try congruence.
    intros (x' & Hxx' & _). discriminate.
Qed.

Lemma isIntact_iff_witness :
  Document.isIntact document_a sample_world = Returns true sample_world
  /\ Document.isIntact document_a world_without_a_cpp
     = Returns false world_without_a_cpp
  /\ Document.isNull document_a sample_world = Returns false sample_world
  /\ Document.fileExists document_a sample_world = Returns true sample_world.
Proof.
  destruct (isIntact_iff document_a sample_world) as (Hiff & Himp & _).
  assert (Hintact : Document.isIntact document_a sample_world
                    = Returns true sample_world).
  { apply Hiff. exists data_a_cpp. split; [reflexivity|].
    split; [vm_compute; reflexivity|reflexivity]. }
  split; [exact Hintact|]. split; [vm_compute; reflexivity|].
  destruct (Himp Hintact) as (Hnull & Hexists & _). split; assumption.
Defined.

(** C7. The project part of a non-null document is outdated exactly when
    the project part's last change is at or after the document's recorded
    last-synced time point; equal time points count as outdated. *)
Theorem isProjectPartOutdated_iff
    (this : Document.t) (w : World) (x : DocumentData.t)
    (Hlive : Document.data this w = Some x) :
  exists b, Document.isProjectPartOutdated this w = Returns b w
    /\ (b = true <->
        ProjectPart.lastChangeTimePoint (DocumentData.projectPart x)
        >= DocumentData.lastProjectPartChangeTimePoint x)
    /\ (ProjectPart.lastChangeTimePoint (DocumentData.projectPart x)
        = DocumentData.lastProjectPartChangeTimePoint x -> b = true).
Proof.
  live this Hlive. exec. eexists; split; [reflexivity|].
  rewrite Z.geb_le. split; [split|]; lia.
Qed.

Lemma isProjectPartOutdated_iff_witness :
  Document.data document_a world_in_step = Some data_in_step
  /\ Document.isProjectPartOutdated document_a world_in_step
     = Returns true world_in_step.
Proof.
  split; [reflexivity|].
  destruct (isProjectPartOutdated_iff document_a world_in_step data_in_step
              eq_refl) as (b & Hrun & _ & Hboundary).
  rewrite Hrun, Hboundary; reflexivity.
Defined.


(** C8. After [setDirty] the document needs to be reparsed, whatever it
    needed before; a second call leaves the flag set and stamps a time
    point that is not earlier than the one of the first call. *)
Theorem setDirty_twice
    (this : Document.t) (w : World) (x : DocumentData.t)
    (Hlive : Document.data this w = Some x) :
  exists w1 x1 w2 x2,
    Document.setDirty this w = Returns tt w1
    /\ Document.data this w1 = Some x1
    /\ DocumentData.needsToBeReparsed x1 = true
    /\ clock w <= DocumentData.needsToBeReparsedChangeTimePoint x1
    /\ Document.setDirty this w1 = Returns tt w2
    /\ Document.data this w2 = Some x2
    /\ DocumentData.needsToBeReparsed x2 = true
    /\ DocumentData.needsToBeReparsedChangeTimePoint x2
       >= DocumentData.needsToBeReparsedChangeTimePoint x1.
Proof.
  live this Hlive. exec.
  do 4 eexists.
  split; [reflexivity|]. observe. split; [reflexivity|].
  split; [reflexivity|]. split; [cbn; lia|].
  exec. split; [reflexivity|]. observe. split; [reflexivity|].
  split; [reflexivity|]. cbn. lia.
Qed.

Lemma setDirty_twice_witness :
  Document.data document_a sample_world = Some data_a_cpp
  /\ exists w1 x1 w2 x2,
    Document.setDirty document_a sample_world = Returns tt w1
    /\ Document.data document_a w1 = Some x1
    /\ DocumentData.needsToBeReparsed x1 = true
    /\ clock sample_world <= DocumentData.needsToBeReparsedChangeTimePoint x1
    /\ Document.setDirty document_a w1 = Returns tt w2
    /\ Document.data document_a w2 = Some x2
    /\ DocumentData.needsToBeReparsed x2 = true
    /\ DocumentData.needsToBeReparsedChangeTimePoint x2
       >= DocumentData.needsToBeReparsedChangeTimePoint x1.
Proof.
  split; [reflexivity|].
  apply (setDirty_twice document_a sample_world data_a_cpp). reflexivity.
Defined.

(** C9. [createUpdateInput] on a non-null document returns with the world,
    and so every field of the document, exactly as it was; the request
    holds the document's current fields, the project part's identifier and
    arguments, and the unsaved files of the document set. *)
Theorem createUpdateInput_pure
    (this : Document.t) (w : World) (x : DocumentData.t)
    (Hlive : Document.data this w = Some x) :
  Document.createUpdateInput this w =
    Returns
      (TranslationUnitUpdateInput.mk
         (ProjectPart.lastChangeTimePoint (DocumentData.projectPart x)
          >=? DocumentData.lastProjectPartChangeTimePoint x)
         (DocumentData.needsToBeReparsed x)
         (DocumentData.needsToBeReparsedChangeTimePoint x)
         (DocumentData.filePath x)
         (DocumentData.fileArguments x)
         (unsavedFiles w)
         (ProjectPart.projectPartId (DocumentData.projectPart x))
         (ProjectPart.arguments (DocumentData.projectPart x)))
      w
  /\ (forall input w', Document.createUpdateInput this w = Returns input w' ->
        w' = w /\ Document.data this w' = Some x).
Proof.
  assert (Hdata := Hlive). live this Hlive.
  match goal with |- ?run /\ _ => assert (Hrun : run) end.
  { exec. reflexivity. }
  split; [exact Hrun|].
  intros input w' Hr. rewrite Hrun in Hr. injection Hr as _ <-. auto.
Qed.

Lemma createUpdateInput_pure_witness :
  Document.data document_a sample_world = Some data_a_cpp
  /\ Document.createUpdateInput document_a sample_world =
     Returns
       (TranslationUnitUpdateInput.mk false true 12 "/a.cpp" ["-Wall"] []
          "P1" ["-std=c++14"])
       sample_world.
Proof.
  split; [reflexivity|].
  apply (createUpdateInput_pure document_a sample_world data_a_cpp).
  reflexivity.
Defined.

(** C4. [setDirtyIfDependencyIsMet] marks the document dirty, exactly as
    [setDirty] does, when the path is one of its dependencies and is either
    not its own file or its own file exists on disk; otherwise it changes
    nothing.  In particular nothing changes for the document's own path
    once that file is gone. *)
Theorem setDirtyIfDependencyIsMet_iff
    (this : Document.t) (w : World) (x : DocumentData.t) (p : Utf8String)
    (Hlive : Document.data this w = Some x) :
  let met := p ∈ DocumentData.dependedFilePaths x
             /\ (p <> DocumentData.filePath x
                 \/ DocumentData.filePath x ∈ fileSystem w) in
  (met ->
   exists w' x',
     Document.setDirtyIfDependencyIsMet this p w = Returns tt w'
     /\ Document.setDirty this w = Returns tt w'
     /\ Document.data this w' = Some x'
     /\ DocumentData.needsToBeReparsed x' = true
     /\ DocumentData.needsToBeReparsedChangeTimePoint x' = clock w'
     /\ clock w <= clock w')
  /\ (~ met -> Document.setDirtyIfDependencyIsMet this p w = Returns tt w)
  /\ (p = DocumentData.filePath x ->
      DocumentData.filePath x ∉ fileSystem w ->
      Document.setDirtyIfDependencyIsMet this p w = Returns tt w).
Proof.
  intros met. subst met. live this Hlive.
  assert (Hdirty : exists w' x',
     Document.setDirty {| Document.d := Some l |} w = Returns tt w'
     /\ Document.data {| Document.d := Some l |} w' = Some x'
     /\ DocumentData.needsToBeReparsed x' = true
     /\ DocumentData.needsToBeReparsedChangeTimePoint x' = clock w'
     /\ clock w <= clock w').
  { exec. do 2 eexists. split; [reflexivity|]. observe.
    split; [reflexivity|]. cbn. repeat split. lia. }
  destruct Hdirty as (w' & x' & Hset & Hpost).
  unfold Document.setDirtyIfDependencyIsMet,
    Document.isMainFileAndExistsOrIsOtherFile.
  repeat split.
  - intros [Hin Hother]. exists w', x'. split; [|split; assumption].
    rewrite <- Hset. exec.
    rewrite (bool_decide_eq_true_2 _ Hin). exec.
    case_bool_decide as Hself; exec; [|reflexivity].
    destruct Hother as [Hne|Hex]; [contradiction|].
    rewrite (bool_decide_eq_true_2 _ Hex). exec. reflexivity.
  - intros Hnot. exec.
    case_bool_decide as Hin; exec; [|reflexivity].
    case_bool_decide as Hself; exec.
    + case_bool_decide as Hex; exec; [|reflexivity].
      exfalso. apply Hnot. auto.
    + exfalso. apply Hnot. auto.
  - intros -> Hgone. exec.
    case_bool_decide as Hin; exec; [|reflexivity].
    rewrite bool_decide_eq_true_2 by reflexivity. exec.
    rewrite (bool_decide_eq_false_2 _ Hgone). exec. reflexivity.
Qed.

Lemma setDirtyIfDependencyIsMet_iff_witness :
  Document.data document_a world_without_a_cpp = Some data_a_cpp
  /\ Document.setDirtyIfDependencyIsMet document_a "/a.cpp"
       world_without_a_cpp
     = Returns tt world_without_a_cpp
  /\ exists w' x',
       Document.setDirtyIfDependencyIsMet document_a "/a.h"
         world_without_a_cpp
       = Returns tt w'
       /\ Document.data document_a w' = Some x'
       /\ DocumentData.needsToBeReparsed x' = true.
Proof.
  split; [reflexivity|].
  pose proof (setDirtyIfDependencyIsMet_iff document_a world_without_a_cpp
                data_a_cpp "/a.cpp" eq_refl) as (_ & _ & Hself).
  pose proof (setDirtyIfDependencyIsMet_iff document_a world_without_a_cpp
                data_a_cpp "/a.h" eq_refl) as (Hmet & _ & _).
  split.
  - apply Hself; [reflexivity|]. vm_compute. intros H. discriminate H.
  - destruct Hmet as (w' & x' & Hrun & _ & Hdata & Hflag & _).
    + split; [vm_compute; reflexivity|]. left. discriminate.
    + exists w', x'. auto.
Defined.

(** ** Incorporating an update result *)

(** What [incorporateUpdaterResult] does to a live document, field by
    field. *)
Lemma incorporateUpdaterResult_live
    (this : Document.t) (l : positive) (w : World) (x : DocumentData.t)
    (result : TranslationUnitUpdateResult.t) :
  Document.d this = Some l -> heap w !! l = Some x ->
  exists w' x',
    Document.incorporateUpdaterResult this result w = Returns tt w'
    /\ heap w' !! l = Some x'
    /\ DocumentData.hasParseOrReparseFailed x'
       = TranslationUnitUpdateResult.hasParseOrReparseFailed result
    /\ DocumentData.needsToBeReparsedChangeTimePoint x'
       = DocumentData.needsToBeReparsedChangeTimePoint x
    /\ DocumentData.filePath x' = DocumentData.filePath x
    /\ fileSystem w' = fileSystem w
    /\ (TranslationUnitUpdateResult.hasParseOrReparseFailed result = true ->
        x' = DocumentData.set_needsToBeReparsed false
               (DocumentData.set_hasParseOrReparseFailed true x)
        /\ w' = set_heap (<[l := x']> (heap w)) w)
    /\ (TranslationUnitUpdateResult.hasParseOrReparseFailed result = false ->
        DocumentData.lastProjectPartChangeTimePoint x'
        = (if TranslationUnitUpdateResult.parseTimePointIsSet result
           then TranslationUnitUpdateResult.parseTimePoint result
           else DocumentData.lastProjectPartChangeTimePoint x)
        /\ DocumentData.dependedFilePaths x'
           = (if TranslationUnitUpdateResult.parseTimePointIsSet result
                 || TranslationUnitUpdateResult.reparsed result
              then TranslationUnitUpdateResult.dependedOnFilePaths result
              else DocumentData.dependedFilePaths x)
        /\ DocumentData.needsToBeReparsed x'
           = (if TranslationUnitUpdateResult.reparsed result
                 && bool_decide
                      (TranslationUnitUpdateResult.needsToBeReparsedChangeTimePoint
                         result
                       = DocumentData.needsToBeReparsedChangeTimePoint x)
              then false
              else DocumentData.needsToBeReparsed x)
        /\ watchedFiles w' = watchedFiles w ∪ DocumentData.dependedFilePaths x').
Proof.
  intros Hd Hx. destruct this as [d0]; cbn in Hd; subst d0.
  destruct result as [failed isSet point reparsed stamp deps].
  cbn [TranslationUnitUpdateResult.hasParseOrReparseFailed
       TranslationUnitUpdateResult.parseTimePointIsSet
       TranslationUnitUpdateResult.parseTimePoint
       TranslationUnitUpdateResult.reparsed
       TranslationUnitUpdateResult.needsToBeReparsedChangeTimePoint
       TranslationUnitUpdateResult.dependedOnFilePaths].
  exec.
  cbn [DocumentData.hasParseOrReparseFailed
       DocumentData.set_hasParseOrReparseFailed
       TranslationUnitUpdateResult.hasParseOrReparseFailed
       TranslationUnitUpdateResult.parseTimePointIsSet
       TranslationUnitUpdateResult.parseTimePoint
       TranslationUnitUpdateResult.reparsed
       TranslationUnitUpdateResult.needsToBeReparsedChangeTimePoint
       TranslationUnitUpdateResult.dependedOnFilePaths].
  destruct failed; exec.
  - do 2 eexists. split; [reflexivity|]. observe.
    split; [reflexivity|]. cbn.
    repeat split; try discriminate.
    now rewrite insert_insert_eq.
  - destruct isSet, reparsed; exec; cbn; try case_bool_decide; exec;
      do 2 eexists; (split; [reflexivity|]); observe;
      (split; [reflexivity|]); cbn; repeat split; try discriminate;
      try congruence.
Qed.

(** The request [createUpdateInput] builds for a live document. *)
Lemma createUpdateInput_live
    (this : Document.t) (l : positive) (w : World) (x : DocumentData.t) :
  Document.d this = Some l -> heap w !! l = Some x ->
  exists input,
    Document.createUpdateInput this w = Returns input w
    /\ TranslationUnitUpdateInput.needsToBeReparsedChangeTimePoint input
       = DocumentData.needsToBeReparsedChangeTimePoint x.
Proof.
  intros Hd Hx. destruct this as [d0]; cbn in Hd; subst d0. exec.
  eexists. split; reflexivity.
Qed.

(** What [setDirty] does to a live document. *)
Lemma setDirty_live
    (this : Document.t) (l : positive) (w : World) (x : DocumentData.t) :
  Document.d this = Some l -> heap w !! l = Some x ->
  exists w1 x1,
    Document.setDirty this w = Returns tt w1
    /\ heap w1 !! l = Some x1
    /\ DocumentData.needsToBeReparsedChangeTimePoint x1
       = clock w + Z.of_N (hd 0%N (ticks w))
    /\ DocumentData.needsToBeReparsed x1 = true.
Proof.
  intros Hd Hx. destruct this as [d0]; cbn in Hd; subst d0. exec.
  do 2 eexists. split; [reflexivity|]. observe.
  split; [reflexivity|]. split; reflexivity.
Qed.

(** C2. Incorporating a failed result records the failure, clears
    [needsToBeReparsed] and returns: no other field of the document changes
    (neither the last-synced time point nor the dependencies), nothing is
    added to the watched files, and the document is no longer intact. *)
Theorem incorporateUpdaterResult_failed
    (this : Document.t) (w : World) (x : DocumentData.t)
    (result : TranslationUnitUpdateResult.t)
    (Hlive : Document.data this w = Some x)
    (Hfailed : TranslationUnitUpdateResult.hasParseOrReparseFailed result
               = true) :
  exists l w' x',
    Document.d this = Some l
    /\ Document.incorporateUpdaterResult this result w = Returns tt w'
    /\ Document.data this w' = Some x'
    /\ DocumentData.hasParseOrReparseFailed x' = true
    /\ DocumentData.needsToBeReparsed x' = false
    /\ x' = DocumentData.set_needsToBeReparsed false
              (DocumentData.set_hasParseOrReparseFailed true x)
    /\ DocumentData.lastProjectPartChangeTimePoint x'
       = DocumentData.lastProjectPartChangeTimePoint x
    /\ DocumentData.dependedFilePaths x' = DocumentData.dependedFilePaths x
    /\ w' = set_heap (<[l := x']> (heap w)) w
    /\ watchedFiles w' = watchedFiles w
    /\ Document.isIntact this w' = Returns false w'.
Proof.
  apply data_live in Hlive. destruct Hlive as (l & Hd & Hx).
  destruct (incorporateUpdaterResult_live this l w x result Hd Hx)
    as (w' & x' & Hrun & Hx' & _ & _ & _ & _ & Hfail & _).
  destruct (Hfail Hfailed) as [Hx'eq Hw'eq].
  exists l, w', x'. split; [exact Hd|]. split; [exact Hrun|].
  assert (Hdata' : Document.data this w' = Some x').
  { apply data_live. eauto. }
  split; [exact Hdata'|].
  assert (Hflag : DocumentData.hasParseOrReparseFailed x' = true)
    by (rewrite Hx'eq; reflexivity).
  split; [exact Hflag|].
  split; [rewrite Hx'eq; reflexivity|].
  split; [exact Hx'eq|].
  split; [rewrite Hx'eq; reflexivity|].
  split; [rewrite Hx'eq; reflexivity|].
  split; [exact Hw'eq|].
  split; [rewrite Hw'eq; reflexivity|].
  destruct this as [d0]; cbn in Hd; subst d0.
  exec. case_bool_decide; exec; rewrite ?Hflag; reflexivity.
Qed.

Lemma incorporateUpdaterResult_failed_witness :
  Document.data document_a sample_world = Some data_a_cpp
  /\ TranslationUnitUpdateResult.hasParseOrReparseFailed failed_result = true
  /\ exists w',
       Document.incorporateUpdaterResult document_a failed_result sample_world
       = Returns tt w'
       /\ Document.isIntact document_a w' = Returns false w'
       /\ watchedFiles w' = watchedFiles sample_world.
Proof.
  split; [reflexivity|]. split; [reflexivity|].
  destruct (incorporateUpdaterResult_failed document_a sample_world data_a_cpp
              failed_result eq_refl eq_refl)
    as (l & w' & x' & _ & Hrun & _ & _ & _ & _ & _ & _ & _ & Hwatched & Hintact).
  exists w'. auto.
Defined.

(** C1. Incorporating a successful result of a reparse clears
    [needsToBeReparsed] when the time point the result was requested at is
    the document's current one, and leaves the flag as it is otherwise.  So
    when [setDirty] ran after the request was built and stamped a strictly
    later time point, the document still needs to be reparsed after the
    result is incorporated. *)
Theorem incorporateUpdaterResult_reparsed
    (this : Document.t) (w : World) (x : DocumentData.t)
    (result : TranslationUnitUpdateResult.t)
    (Hlive : Document.data this w = Some x)
    (Hok : TranslationUnitUpdateResult.hasParseOrReparseFailed result = false)
    (Hreparsed : TranslationUnitUpdateResult.reparsed result = true) :
  (exists w' x',
     Document.incorporateUpdaterResult this result w = Returns tt w'
     /\ Document.data this w' = Some x'
     /\ DocumentData.needsToBeReparsedChangeTimePoint x'
        = DocumentData.needsToBeReparsedChangeTimePoint x
     /\ (TranslationUnitUpdateResult.needsToBeReparsedChangeTimePoint result
         = DocumentData.needsToBeReparsedChangeTimePoint x ->
         DocumentData.needsToBeReparsed x' = false)
     /\ (TranslationUnitUpdateResult.needsToBeReparsedChangeTimePoint result
         <> DocumentData.needsToBeReparsedChangeTimePoint x ->
         DocumentData.needsToBeReparsed x' = DocumentData.needsToBeReparsed x)
     /\ (DocumentData.needsToBeReparsed x = true ->
         (DocumentData.needsToBeReparsed x' = false <->
          TranslationUnitUpdateResult.needsToBeReparsedChangeTimePoint result
          = DocumentData.needsToBeReparsedChangeTimePoint x)))
  /\ (exists input w1 x1,
        Document.createUpdateInput this w = Returns input w
        /\ TranslationUnitUpdateInput.needsToBeReparsedChangeTimePoint input
           = DocumentData.needsToBeReparsedChangeTimePoint x
        /\ Document.setDirty this w = Returns tt w1
        /\ Document.data this w1 = Some x1
        /\ DocumentData.needsToBeReparsedChangeTimePoint x1
           = clock w + Z.of_N (hd 0%N (ticks w))
        /\ (DocumentData.needsToBeReparsedChangeTimePoint x
            < DocumentData.needsToBeReparsedChangeTimePoint x1 ->
            TranslationUnitUpdateResult.needsToBeReparsedChangeTimePoint result
            = TranslationUnitUpdateInput.needsToBeReparsedChangeTimePoint input ->
            exists w2 x2,
              Document.incorporateUpdaterResult this result w1 = Returns tt w2
              /\ Document.data this w2 = Some x2
              /\ DocumentData.needsToBeReparsed x2 = true)).
Proof.
  apply data_live in Hlive. destruct Hlive as (l & Hd & Hx).
  split.
  - destruct (incorporateUpdaterResult_live this l w x result Hd Hx)
      as (w' & x' & Hrun & Hx' & _ & Hstamp & _ & _ & _ & Hsucc).
    destruct (Hsucc Hok) as (_ & _ & Hflag & _).
    rewrite Hreparsed in Hflag. cbn [andb] in Hflag.
    exists w', x'. split; [exact Hrun|].
    split; [apply data_live; eauto|]. split; [exact Hstamp|].
    case_bool_decide as Heq.
    + repeat split; intros; solve [assumption | contradiction].
    + repeat split; intros; try solve [assumption | contradiction].
      congruence.
  - destruct (createUpdateInput_live this l w x Hd Hx)
      as (input & Hinput & Hcaptured).
    destruct (setDirty_live this l w x Hd Hx)
      as (w1 & x1 & Hset & Hx1 & Hstamp1 & Hflag1).
    exists input, w1, x1. split; [exact Hinput|]. split; [exact Hcaptured|].
    split; [exact Hset|]. split; [apply data_live; eauto|].
    split; [exact Hstamp1|].
    intros Hlater Hsame.
    destruct (incorporateUpdaterResult_live this l w1 x1 result Hd Hx1)
      as (w2 & x2 & Hrun & Hx2 & _ & _ & _ & _ & _ & Hsucc).
    destruct (Hsucc Hok) as (_ & _ & Hflag & _).
    exists w2, x2. split; [exact Hrun|]. split; [apply data_live; eauto|].
    rewrite Hflag, Hreparsed. cbn [andb].
    rewrite bool_decide_eq_false_2; [exact Hflag1|]. lia.
Qed.

Lemma incorporateUpdaterResult_reparsed_witness :
  Document.data document_a sample_world = Some data_a_cpp
  /\ TranslationUnitUpdateResult.hasParseOrReparseFailed reparse_result = false
  /\ TranslationUnitUpdateResult.reparsed reparse_result = true
  /\ (exists w',
        Document.incorporateUpdaterResult document_a reparse_result
          sample_world = Returns tt w'
        /\ Document.isNeedingReparse document_a w' = Returns false w')
  /\ (exists w1 w2,
        Document.setDirty document_a sample_world = Returns tt w1
        /\ Document.incorporateUpdaterResult document_a reparse_result w1
           = Returns tt w2
        /\ Document.isNeedingReparse document_a w2 = Returns true w2).
Proof.
  split; [reflexivity|]. split; [reflexivity|]. split; [reflexivity|].
  destruct (incorporateUpdaterResult_reparsed document_a sample_world
              data_a_cpp reparse_result eq_refl eq_refl eq_refl)
    as ((w' & x' & Hrun & Hdata & _ & Hclear & _)
        & (input & w1 & x1 & _ & Hcaptured & Hset & _ & Hstamp & Hkeep)).
  split.
  - exists w'. split; [exact Hrun|].
    apply data_live in Hdata. destruct Hdata as (l & [= <-] & Hx').
    unfold Document.isNeedingReparse, Document.checkIfNull, Document.isNull,
      Document.deref, mbind, M_bind, mret, M_ret. cbn.
    rewrite Hx', (Hclear eq_refl). reflexivity.
  - destruct Hkeep as (w2 & x2 & Hrun2 & Hdata2 & Hflag2).
    + rewrite Hstamp. reflexivity.
    + rewrite Hcaptured. reflexivity.
    + exists w1, w2. split; [exact Hset|]. split; [exact Hrun2|].
      apply data_live in Hdata2. destruct Hdata2 as (l & [= <-] & Hx2).
      unfold Document.isNeedingReparse, Document.checkIfNull, Document.isNull,
        Document.deref, mbind, M_bind, mret, M_ret. cbn.
      rewrite Hx2, Hflag2. reflexivity.
Defined.

(** ** Parsing *)

(** [parse] on a live document: the request is built, the parser runs on
    the document's translation unit and leaves its index and translation
    unit behind, and its result is incorporated. *)
Lemma parse_live
    (engine : Engine) (this : Document.t) (l : positive) (w : World)
    (x : DocumentData.t) :
  Document.d this = Some l -> heap w !! l = Some x ->
  exists input,
    Document.createUpdateInput this w = Returns input w
    /\ let unit := TranslationUnit.mk (DocumentData.filePath x)
                     (DocumentData.index x) (DocumentData.translationUnit x) in
       let x0 := DocumentData.set_translationUnit (engine unit input).2.2
                   (DocumentData.set_index (engine unit input).2.1 x) in
       Document.parse engine this w
       = Document.incorporateUpdaterResult this (engine unit input).1
           (set_heap (<[l := x0]> (heap w)) w).
Proof.
  intros Hd Hx. destruct this as [d0]; cbn in Hd; subst d0.
  eexists. split; [exec; reflexivity|].
  cbv zeta. unfold Document.parse, Document.run.
  unfold Document.createUpdateInput, Document.translationUnit,
    Document.isProjectPartOutdated, Document.isNeedingReparse,
    Document.filePath, Document.fileArguments, Document.projectPart,
    Document.checkIfNull, Document.isNull, Document.deref, Document.assign,
    Documents.unsavedFiles, throw.
  repeat (crunch; rewrite ?lookup_insert_eq, ?Hx).
  match goal with
  | |- context [engine ?u ?i] => destruct (engine u i) as [r [i' t']]
  end.
  repeat (crunch; rewrite ?lookup_insert_eq, ?Hx).
  cbn [fst snd]. rewrite insert_insert_eq. reflexivity.
Qed.

(** C5, as the code has it.  Incorporating a successful result of an
    update that did not reparse, right after [parse], leaves
    [needsToBeReparsed] as [parse] left it, and replaces the dependencies by
    the reported ones when the result carries a parse time point; without
    one the dependencies stay as they were.  The same holds for the result
    [parse] itself incorporates. *)
Theorem parse_then_incorporate_not_reparsed
    (TranslationUnit_parse : Engine)
    (this : Document.t) (w : World) (x : DocumentData.t)
    (result : TranslationUnitUpdateResult.t)
    (Hlive : Document.data this w = Some x)
    (Hok : TranslationUnitUpdateResult.hasParseOrReparseFailed result = false)
    (Hnot : TranslationUnitUpdateResult.reparsed result = false) :
  exists input w1 x1 w2 x2,
    Document.createUpdateInput this w = Returns input w
    /\ Document.parse TranslationUnit_parse this w = Returns tt w1
    /\ Document.data this w1 = Some x1
    /\ Document.incorporateUpdaterResult this result w1 = Returns tt w2
    /\ Document.data this w2 = Some x2
    /\ DocumentData.needsToBeReparsed x2 = DocumentData.needsToBeReparsed x1
    /\ (TranslationUnitUpdateResult.parseTimePointIsSet result = true ->
        DocumentData.dependedFilePaths x2
        = TranslationUnitUpdateResult.dependedOnFilePaths result)
    /\ (TranslationUnitUpdateResult.parseTimePointIsSet result = false ->
        DocumentData.dependedFilePaths x2 = DocumentData.dependedFilePaths x1)
    /\ (let own := (TranslationUnit_parse
                      (TranslationUnit.mk (DocumentData.filePath x)
                         (DocumentData.index x)
                         (DocumentData.translationUnit x))
                      input).1 in
        TranslationUnitUpdateResult.hasParseOrReparseFailed own = false ->
        TranslationUnitUpdateResult.reparsed own = false ->
        DocumentData.needsToBeReparsed x1 = DocumentData.needsToBeReparsed x
        /\ (TranslationUnitUpdateResult.parseTimePointIsSet own = true ->
            DocumentData.dependedFilePaths x1
            = TranslationUnitUpdateResult.dependedOnFilePaths own)
        /\ (TranslationUnitUpdateResult.parseTimePointIsSet own = false ->
            DocumentData.dependedFilePaths x1
            = DocumentData.dependedFilePaths x)).
Proof.
  apply data_live in Hlive. destruct Hlive as (l & Hd & Hx).
  destruct (parse_live TranslationUnit_parse this l w x Hd Hx)
    as (input & Hinput & Hparse).
  cbv zeta in Hparse.
  set (unit := TranslationUnit.mk (DocumentData.filePath x)
                 (DocumentData.index x) (DocumentData.translationUnit x)) in *.
  set (own := (TranslationUnit_parse unit input).1) in *.
  set (x0 := DocumentData.set_translationUnit _ _) in Hparse.
  set (w0 := set_heap (<[l := x0]> (heap w)) w) in Hparse.
  assert (Hx0 : heap w0 !! l = Some x0) by (subst w0; observe; reflexivity).
  destruct (incorporateUpdaterResult_live this l w0 x0 own Hd Hx0)
    as (w1 & x1 & Hrun1 & Hx1 & _ & _ & _ & _ & _ & Hown).
  destruct (incorporateUpdaterResult_live this l w1 x1 result Hd Hx1)
    as (w2 & x2 & Hrun2 & Hx2 & _ & _ & _ & _ & _ & Hsucc).
  destruct (Hsucc Hok) as (_ & Hdeps & Hflag & _).
  rewrite Hnot in Hdeps, Hflag. cbn [andb] in Hflag.
  rewrite orb_false_r in Hdeps.
  exists input, w1, x1, w2, x2.
  split; [exact Hinput|]. split; [rewrite Hparse; exact Hrun1|].
  split; [apply data_live; eauto|]. split; [exact Hrun2|].
  split; [apply data_live; eauto|]. split; [exact Hflag|].
  split; [intros Hset; rewrite Hdeps, Hset; reflexivity|].
  split; [intros Hset; rewrite Hdeps, Hset; reflexivity|].
  intros own'. assert (Hsame : own' = own) by reflexivity.
  clearbody own'. subst own'. intros Hok' Hnot'.
  destruct (Hown Hok') as (_ & Hdeps' & Hflag' & _).
  rewrite Hnot' in Hdeps', Hflag'. cbn [andb] in Hflag'.
  rewrite orb_false_r in Hdeps'.
  split; [exact Hflag'|].
  split; intros Hset; rewrite Hdeps', Hset; reflexivity.
Qed.

Lemma parse_then_incorporate_not_reparsed_witness :
  Document.data document_a sample_world = Some data_a_cpp
  /\ TranslationUnitUpdateResult.hasParseOrReparseFailed parse_result = false
  /\ TranslationUnitUpdateResult.reparsed parse_result = false
  /\ exists w1 x1 w2 x2,
       Document.parse parsing_engine document_a sample_world = Returns tt w1
       /\ Document.data document_a w1 = Some x1
       /\ Document.incorporateUpdaterResult document_a parse_result w1
          = Returns tt w2
       /\ Document.data document_a w2 = Some x2
       /\ DocumentData.needsToBeReparsed x2 = DocumentData.needsToBeReparsed x1
       /\ DocumentData.dependedFilePaths x2
          = TranslationUnitUpdateResult.dependedOnFilePaths parse_result.
Proof.
  split; [reflexivity|]. split; [reflexivity|]. split; [reflexivity|].
  destruct (parse_then_incorporate_not_reparsed parsing_engine document_a
              sample_world data_a_cpp parse_result eq_refl eq_refl eq_refl)
    as (input & w1 & x1 & w2 & x2 & _ & Hparse & Hx1 & Hrun & Hx2 & Hflag
        & Hdeps & _).
  exists w1, x1, w2, x2. repeat split; try assumption.
  apply Hdeps. reflexivity.
Defined.

(** C5, as claimed, fails: a dirty document is still dirty after [parse]
    and after a successful result without reparse is incorporated, and a
    result of an update that had nothing to do leaves the dependencies as
    they were, not as the (empty) reported set. *)
Lemma parse_then_incorporate_keeps_dirty :
  exists w1 w2 w3,
    Document.parse parsing_engine document_a sample_world = Returns tt w1
    /\ Document.incorporateUpdaterResult document_a parse_result w1
       = Returns tt w2
    /\ Document.isNeedingReparse document_a w2 = Returns true w2
    /\ Document.isNeedingReparse document_a w2 <> Returns false w2
    /\ TranslationUnitUpdateResult.hasParseOrReparseFailed idle_result = false
    /\ TranslationUnitUpdateResult.reparsed idle_result = false
    /\ Document.incorporateUpdaterResult document_a idle_result w1
       = Returns tt w3
    /\ Document.dependedFilePaths document_a w3
       = Returns {[ "/a.cpp"; "/a.h"; "/b.h" ]} w3
    /\ Document.dependedFilePaths document_a w3
       <> Returns (TranslationUnitUpdateResult.dependedOnFilePaths idle_result)
            w3.
Proof.
  do 3 eexists.
  split; [vm_compute; reflexivity|].
  split; [vm_compute; reflexivity|].
  split; [vm_compute; reflexivity|].
  split; [vm_compute; discriminate|].
  split; [reflexivity|]. split; [reflexivity|].
  split; [vm_compute; reflexivity|].
  split; [vm_compute; reflexivity|].
  vm_compute. discriminate.
Qed.

(** ** Null documents *)

(** C6, as the code has it.  On a null document every member function that
    starts with [checkIfNull] throws [DocumentIsNullException] and changes
    nothing, whatever its arguments; [isNull] returns true and [isIntact]
    returns false without throwing. *)
Theorem null_document_throws
    (this : Document.t) (w : World) (Hnull : Document.d this = None) :
  Document.isNull this w = Returns true w
  /\ Document.isIntact this w = Returns false w
  /\ Document.filePath this w = Throws DocumentIsNullException w
  /\ Document.fileArguments this w = Throws DocumentIsNullException w
  /\ Document.fileContainer this w = Throws DocumentIsNullException w
  /\ Document.projectPartId this w = Throws DocumentIsNullException w
  /\ Document.projectPart this w = Throws DocumentIsNullException w
  /\ Document.lastProjectPartChangeTimePoint this w
     = Throws DocumentIsNullException w
  /\ Document.isProjectPartOutdated this w = Throws DocumentIsNullException w
  /\ Document.documentRevision this w = Throws DocumentIsNullException w
  /\ (forall revision,
        Document.setDocumentRevision this revision w
        = Throws DocumentIsNullException w)
  /\ Document.isUsedByCurrentEditor this w = Throws DocumentIsNullException w
  /\ (forall used,
        Document.setIsUsedByCurrentEditor this used w
        = Throws DocumentIsNullException w)
  /\ Document.isVisibleInEditor this w = Throws DocumentIsNullException w
  /\ (forall visible,
        Document.setIsVisibleInEditor this visible w
        = Throws DocumentIsNullException w)
  /\ Document.isNeededReparseChangeTimePoint this w
     = Throws DocumentIsNullException w
  /\ Document.isNeedingReparse this w = Throws DocumentIsNullException w
  /\ Document.setDirtyIfProjectPartIsOutdated this w
     = Throws DocumentIsNullException w
  /\ Document.createUpdateInput this w = Throws DocumentIsNullException w
  /\ Document.createUpdater this w = Throws DocumentIsNullException w
  /\ Document.translationUnit this w = Throws DocumentIsNullException w
  /\ (forall engine,
        Document.parse engine this w = Throws DocumentIsNullException w)
  /\ (forall engine,
        Document.reparse engine this w = Throws DocumentIsNullException w)
  /\ Document.dependedFilePaths this w = Throws DocumentIsNullException w
  /\ (forall second,
        Document.equal this second w = Throws DocumentIsNullException w).
Proof.
  destruct this as [d0]; cbn in Hnull; subst d0.
  repeat split; intros; exec; reflexivity.
Qed.

Lemma null_document_throws_witness :
  Document.d null_document = None
  /\ Document.isIntact null_document sample_world = Returns false sample_world
  /\ Document.filePath null_document sample_world
     = Throws DocumentIsNullException sample_world
  /\ Document.parse parsing_engine null_document sample_world
     = Throws DocumentIsNullException sample_world.
Proof.
  split; [reflexivity|].
  pose proof (null_document_throws null_document sample_world eq_refl) as H.
  split; [apply H|]. split; [apply H|].
  decompose [and] H.
  match goal with Hp : forall engine, Document.parse _ _ _ = _ |- _ =>
    apply Hp end.
Defined.

(** C6, as claimed, fails: on a null document [isIntact] returns false
    instead of throwing, and [fileExists], [setDirty] and
    [incorporateUpdaterResult] go through the empty pointer without any
    check, so none of them throws [DocumentIsNullException]. *)
Lemma null_document_unguarded :
  Document.isNull null_document sample_world = Returns true sample_world
  /\ Document.isIntact null_document sample_world = Returns false sample_world
  /\ Document.isIntact null_document sample_world
     <> Throws DocumentIsNullException sample_world
  /\ Document.fileExists null_document sample_world = Undefined
  /\ Document.fileExists null_document sample_world
     <> Throws DocumentIsNullException sample_world
  /\ Document.setDirty null_document sample_world = Undefined
  /\ Document.setDirty null_document sample_world
     <> Throws DocumentIsNullException sample_world
  /\ Document.incorporateUpdaterResult null_document idle_result sample_world
     = Undefined
  /\ Document.incorporateUpdaterResult null_document idle_result sample_world
     <> Throws DocumentIsNullException sample_world.
Proof.
  repeat split; try reflexivity; discriminate.
Qed.

(** ** Moving documents *)

(** Moving an object onto itself leaves it as it was: the temporary hands
    the pointer back. *)
Lemma move_assign_self (objs : gmap string Document.t) (a : string)
    (o : Document.t) :
  objs !! a = Some o -> Objects.move_assign a a objs = Some objs.
Proof.
  intros Ha. unfold Objects.move_assign. rewrite Ha. cbn.
  rewrite lookup_insert_eq. cbn. rewrite insert_insert_eq.
  destruct o as [d0]. cbn. rewrite insert_id; auto.
Qed.

(** C10. After another document was move-constructed or move-assigned
    from a document, the moved-from object is null and the destination
    holds the pointer, and with it the state, the source held before. *)
Theorem move_leaves_source_null
    (objs : gmap string Document.t) (destination source : string)
    (o : Document.t)
    (Hsource : objs !! source = Some o)
    (Hother : destination <> source) :
  (exists objs' from to,
     Objects.move_ctor destination source objs = Some objs'
     /\ objs' !! source = Some from
     /\ objs' !! destination = Some to
     /\ (forall w, Document.isNull from w = Returns true w)
     /\ Document.d to = Document.d o
     /\ (forall w, Document.data to w = Document.data o w))
  /\ (forall old, objs !! destination = Some old ->
      exists objs' from to,
        Objects.move_assign destination source objs = Some objs'
        /\ objs' !! source = Some from
        /\ objs' !! destination = Some to
        /\ (forall w, Document.isNull from w = Returns true w)
        /\ Document.d to = Document.d o
        /\ (forall w, Document.data to w = Document.data o w)).
Proof.
  split.
  - unfold Objects.move_ctor. rewrite Hsource. cbn.
    eexists _, _, _. split; [reflexivity|].
    split; [rewrite lookup_insert_ne by exact Hother; apply lookup_insert_eq|].
    split; [apply lookup_insert_eq|].
    repeat split.
  - intros old Hold. unfold Objects.move_assign. rewrite Hsource. cbn.
    rewrite lookup_insert_ne by congruence. rewrite Hold. cbn.
    eexists _, _, _. split; [reflexivity|].
    split; [rewrite lookup_insert_ne by exact Hother; apply lookup_insert_eq|].
    split; [apply lookup_insert_eq|].
    repeat split.
Qed.

Lemma move_leaves_source_null_witness :
  sample_objects !! "a" = Some document_a
  /\ "b" <> "a"
  /\ (exists objs',
        Objects.move_assign "b" "a" sample_objects = Some objs'
        /\ objs' !! "a" = Some null_document
        /\ objs' !! "b" = Some document_a)
  /\ (exists objs',
        Objects.move_ctor "c" "a" sample_objects = Some objs'
        /\ objs' !! "a" = Some null_document
        /\ objs' !! "c" = Some document_a).
Proof.
  assert (Ha : sample_objects !! "a" = Some document_a) by reflexivity.
  assert (Hba : "b" <> "a") by discriminate.
  assert (Hca : "c" <> "a") by discriminate.
  split; [exact Ha|]. split; [exact Hba|].
  split.
  - destruct (move_leaves_source_null sample_objects "b" "a" document_a
                Ha Hba) as (_ & Hassign).
    destruct (Hassign null_document eq_refl)
      as (objs' & from & to & Hrun & _).
    exists objs'. split; [exact Hrun|].
    vm_compute in Hrun. injection Hrun as <-. split; reflexivity.
  - destruct (move_leaves_source_null sample_objects "c" "a" document_a
                Ha Hca) as ((objs' & from & to & Hrun & _) & _).
    exists objs'. split; [exact Hrun|].
    vm_compute in Hrun. injection Hrun as <-. split; reflexivity.
Defined.

(** * Further properties of the document *)

(** ** Runs on a live document, as equations *)

(** [incorporateUpdaterResult] on a live document: the document's cell is
    rewritten, the watched files grow by the dependencies unless the result
    failed, and nothing else changes. *)
Lemma incorporateUpdaterResult_run
    (this : Document.t) (l : positive) (w : World) (x : DocumentData.t)
    (result : TranslationUnitUpdateResult.t) :
  Document.d this = Some l -> heap w !! l = Some x ->
  Document.incorporateUpdaterResult this result w
  = Returns tt
      (mkWorld (<[l := incorporated result x]> (heap w))
         (if TranslationUnitUpdateResult.hasParseOrReparseFailed result
          then watchedFiles w
          else watchedFiles w
               ∪ DocumentData.dependedFilePaths (incorporated result x))
         (unsavedFiles w) (fileSystem w) (clock w) (ticks w)).
Proof.
  intros Hd Hx. destruct this as [d0]; cbn in Hd; subst d0.
  destruct result as [failed isSet point reparsed stamp deps].
  unfold incorporated.
  cbn [TranslationUnitUpdateResult.hasParseOrReparseFailed
       TranslationUnitUpdateResult.parseTimePointIsSet
       TranslationUnitUpdateResult.parseTimePoint
       TranslationUnitUpdateResult.reparsed
       TranslationUnitUpdateResult.needsToBeReparsedChangeTimePoint
       TranslationUnitUpdateResult.dependedOnFilePaths].
  exec.
  cbn [DocumentData.hasParseOrReparseFailed
       DocumentData.set_hasParseOrReparseFailed].
  destruct failed; exec.
  - unfold set_heap. repeat (cbn; rewrite ?lookup_insert_eq).
    now rewrite insert_insert_eq.
  - destruct isSet, reparsed; unfold set_heap, set_watchedFiles;
      repeat (cbn; rewrite ?lookup_insert_eq);
      try destruct
            (bool_decide
               (stamp = DocumentData.needsToBeReparsedChangeTimePoint x));
      repeat (cbn; rewrite ?lookup_insert_eq);
      rewrite ?insert_insert_eq; reflexivity.
Qed.

(** What [setDirty] leaves behind on a live document, exactly. *)
Lemma setDirty_run
    (this : Document.t) (l : positive) (w : World) (x : DocumentData.t) :
  Document.d this = Some l -> heap w !! l = Some x ->
  let now := clock w + Z.of_N (hd 0%N (ticks w)) in
  Document.setDirty this w
  = Returns tt
      (mkWorld
         (<[l := DocumentData.set_needsToBeReparsed true
                   (DocumentData.set_needsToBeReparsedChangeTimePoint now x)]>
            (heap w))
         (watchedFiles w) (unsavedFiles w) (fileSystem w) now (tl (ticks w))).
Proof.
  intros Hd Hx. destruct this as [d0]; cbn in Hd; subst d0.
  cbv zeta. exec. unfold set_heap, set_clock. cbn.
  now rewrite insert_insert_eq.
Qed.

(** The queries on a live document. *)
Lemma isIntact_live
    (this : Document.t) (l : positive) (w : World) (x : DocumentData.t) :
  Document.d this = Some l -> heap w !! l = Some x ->
  Document.isIntact this w
  = Returns (bool_decide (DocumentData.filePath x ∈ fileSystem w)
             && negb (DocumentData.hasParseOrReparseFailed x)) w.
Proof.
  intros Hd Hx. destruct this as [d0]; cbn in Hd; subst d0. exec.
  case_bool_decide; exec; reflexivity.
Qed.

Lemma isProjectPartOutdated_live
    (this : Document.t) (l : positive) (w : World) (x : DocumentData.t) :
  Document.d this = Some l -> heap w !! l = Some x ->
  Document.isProjectPartOutdated this w
  = Returns (ProjectPart.lastChangeTimePoint (DocumentData.projectPart x)
             >=? DocumentData.lastProjectPartChangeTimePoint x) w.
Proof.
  intros Hd Hx. destruct this as [d0]; cbn in Hd; subst d0. exec.
  reflexivity.
Qed.

Lemma isNeedingReparse_live
    (this : Document.t) (l : positive) (w : World) (x : DocumentData.t) :
  Document.d this = Some l -> heap w !! l = Some x ->
  Document.isNeedingReparse this w
  = Returns (DocumentData.needsToBeReparsed x) w.
Proof.
  intros Hd Hx. destruct this as [d0]; cbn in Hd; subst d0. exec.
  reflexivity.
Qed.

(** A member function that starts by dereferencing [d] returns only on a
    live document. *)
Lemma returns_live {B} (this : Document.t) (k : DocumentData.t -> M B)
    (w w' : World) (b : B) :
  (x ← Document.deref this; k x) w = Returns b w' ->
  exists l x, Document.d this = Some l /\ heap w !! l = Some x.
Proof.
  unfold mbind, M_bind, Document.deref.
  destruct (Document.d this) as [l|]; [|discriminate].
  destruct (heap w !! l) as [x|] eqn:Hx; [|discriminate]. eauto.
Qed.

(** ** Construction *)

(** X1. Constructing a document allocates fresh backing state whose two
    time points are the clock reading at construction, whose dependencies
    are its own file, and whose flags are all false; it registers nothing
    with the watched files.  With the existence check and a missing file the
    constructor throws [DocumentFileDoesNotExistException] for that path.
    Either way the documents that already exist are untouched. *)
Theorem ctor_checks_file
    (filePath : Utf8String) (projectPart : ProjectPart.t)
    (fileArguments : Utf8StringVector) (check : FileExistsCheck) (w : World) :
  let now := clock w + Z.of_N (hd 0%N (ticks w)) in
  (check = DoNotCheckIfFileExists \/ filePath ∈ fileSystem w ->
   exists this w',
     Document.ctor filePath projectPart fileArguments check w
     = Returns this w'
     /\ Document.data this w = None
     /\ Document.data this w'
        = Some (DocumentData.mk filePath fileArguments projectPart now None
                  None {[ filePath ]} 0%N now false false false false)
     /\ clock w' = now
     /\ watchedFiles w' = watchedFiles w
     /\ (forall l x, heap w !! l = Some x -> heap w' !! l = Some x))
  /\ (check = CheckIfFileExists -> filePath ∉ fileSystem w ->
      exists w',
        Document.ctor filePath projectPart fileArguments check w
        = Throws (DocumentFileDoesNotExistException filePath) w'
        /\ watchedFiles w' = watchedFiles w
        /\ (forall l x, heap w !! l = Some x -> heap w' !! l = Some x)).
Proof.
  cbv zeta.
  assert (Hfresh : heap w !! fresh (dom (heap w)) = None)
    by apply not_elem_of_dom, is_fresh.
  assert (Hkeep : forall (y : DocumentData.t) l x, heap w !! l = Some x ->
            <[fresh (dom (heap w)) := y]> (heap w) !! l = Some x).
  { intros y l x Hl. rewrite lookup_insert_ne; [exact Hl|]. congruence. }
  unfold Document.ctor, Document.DocumentData_ctor, Document.make_shared,
    steady_clock_now, when.
  split.
  - intros Hcase. crunch. destruct check.
    + destruct Hcase as [Hno|Hin]; [discriminate|].
      rewrite bool_decide_eq_true_2 by reflexivity.
      exec. cbn [DocumentData.filePath].
      rewrite (bool_decide_eq_true_2 _ Hin). exec.
      do 2 eexists. split; [reflexivity|]. observe.
      split; [exact Hfresh|]. split; [reflexivity|].
      split; [reflexivity|]. split; [reflexivity|]. apply Hkeep.
    + rewrite bool_decide_eq_false_2 by discriminate. crunch.
      do 2 eexists. split; [reflexivity|]. observe.
      split; [exact Hfresh|]. split; [reflexivity|].
      split; [reflexivity|]. split; [reflexivity|]. apply Hkeep.
  - intros -> Hgone. crunch.
    rewrite bool_decide_eq_true_2 by reflexivity.
    exec. cbn [DocumentData.filePath].
    rewrite (bool_decide_eq_false_2 _ Hgone). exec.
    eexists. split; [reflexivity|]. cbn.
    split; [reflexivity|]. apply Hkeep.
Qed.

Lemma ctor_checks_file_witness :
  (exists this w',
     Document.ctor "/b.cpp" project_P1 [] CheckIfFileExists two_documents
     = Returns this w'
     /\ Document.data this two_documents = None
     /\ Document.data document_a w' = Some data_a_cpp)
  /\ (exists w',
        Document.ctor "/c.cpp" project_P1 [] CheckIfFileExists two_documents
        = Throws (DocumentFileDoesNotExistException "/c.cpp") w').
Proof.
  destruct (ctor_checks_file "/b.cpp" project_P1 [] CheckIfFileExists
              two_documents) as (Hok & _).
  destruct (ctor_checks_file "/c.cpp" project_P1 [] CheckIfFileExists
              two_documents) as (_ & Hthrow).
  split.
  - destruct Hok as (this & w' & Hrun & Hnew & _ & _ & _ & Hkeep).
    + right. vm_compute. reflexivity.
    + exists this, w'. split; [exact Hrun|]. split; [exact Hnew|].
      apply (Hkeep 1%positive data_a_cpp). reflexivity.
  - destruct Hthrow as (w' & Hrun & _).
    + reflexivity.
    + vm_compute. intros H. discriminate H.
    + exists w'. exact Hrun.
Defined.

(** ** Copies and reset *)

(** X2. A copy of a document, by construction or by assignment, points to
    the same backing state as its source: it reads the same state in every
    world, and what is written through the source is read through the
    copy. *)
Theorem copies_share_state
    (objs : gmap string Document.t) (new other : string) (o : Document.t)
    (Hother : objs !! other = Some o) :
  let shares (c : Document.t) :=
    Document.d c = Document.d o
    /\ (forall w, Document.data c w = Document.data o w)
    /\ (forall w w' revision,
          Document.setDocumentRevision o revision w = Returns tt w' ->
          Document.documentRevision c w' = Returns revision w')
    /\ (forall w w',
          Document.setDirty o w = Returns tt w' ->
          Document.isNeedingReparse c w' = Returns true w') in
  (exists objs' c,
     Objects.copy_ctor new other objs = Some objs'
     /\ objs' !! new = Some c /\ shares c)
  /\ (forall old, objs !! new = Some old ->
      exists objs' c,
        Objects.copy_assign new other objs = Some objs'
        /\ objs' !! new = Some c /\ shares c).
Proof.
  cbv zeta.
  assert (Hshares :
    Document.d (Document.mk (Document.d o)) = Document.d o
    /\ (forall w, Document.data (Document.mk (Document.d o)) w
                  = Document.data o w)
    /\ (forall w w' revision,
          Document.setDocumentRevision o revision w = Returns tt w' ->
          Document.documentRevision (Document.mk (Document.d o)) w'
          = Returns revision w')
    /\ (forall w w',
          Document.setDirty o w = Returns tt w' ->
          Document.isNeedingReparse (Document.mk (Document.d o)) w'
          = Returns true w')).
  { destruct o as [[l|]]; cbn [Document.d].
    - repeat split.
      + intros w w' revision. destruct (heap w !! l) as [x|] eqn:Hx; exec.
        * intros [= <-]. exec. reflexivity.
        * discriminate.
      + intros w w'. destruct (heap w !! l) as [x|] eqn:Hx; exec.
        * intros [= <-]. exec. reflexivity.
        * discriminate.
    - repeat split; intros *; exec; discriminate. }
  split.
  - unfold Objects.copy_ctor. rewrite Hother. cbn.
    do 2 eexists. split; [reflexivity|].
    split; [apply lookup_insert_eq|]. exact Hshares.
  - intros old Hold. unfold Objects.copy_assign. rewrite Hother. cbn.
    rewrite Hold. cbn.
    do 2 eexists. split; [reflexivity|].
    split; [apply lookup_insert_eq|]. exact Hshares.
Qed.

Lemma copies_share_state_witness :
  sample_objects !! "a" = Some document_a
  /\ exists objs' c w',
       Objects.copy_assign "b" "a" sample_objects = Some objs'
       /\ objs' !! "b" = Some c
       /\ Document.setDocumentRevision document_a 7%N sample_world
          = Returns tt w'
       /\ Document.documentRevision c w' = Returns 7%N w'.
Proof.
  split; [reflexivity|].
  destruct (copies_share_state sample_objects "b" "a" document_a eq_refl)
    as (_ & Hassign).
  destruct (Hassign null_document eq_refl)
    as (objs' & c & Hrun & Hc & _ & _ & Hrevision & _).
  eexists objs', c, _. split; [exact Hrun|]. split; [exact Hc|].
  split; [|apply (Hrevision sample_world)]; vm_compute; reflexivity.
Defined.

(** X3. Resetting a document empties that object only: a copy made before
    still points to the state the document had, while the reset object is
    null and not intact. *)
Theorem reset_leaves_copies
    (objs : gmap string Document.t) (this copy : string) (o : Document.t)
    (Hthis : objs !! this = Some o)
    (Hcopy : copy <> this) :
  exists objs1 objs2 c n,
    Objects.copy_ctor copy this objs = Some objs1
    /\ Objects.reset this objs1 = Some objs2
    /\ objs2 !! copy = Some c
    /\ objs2 !! this = Some n
    /\ Document.d c = Document.d o
    /\ (forall w, Document.data c w = Document.data o w)
    /\ (forall w, Document.isNull n w = Returns true w)
    /\ (forall w, Document.isIntact n w = Returns false w)
    /\ (forall other, other <> this -> other <> copy ->
                      objs2 !! other = objs !! other).
Proof.
  exists (<[copy := Document.mk (Document.d o)]> objs).
  unfold Objects.copy_ctor, Objects.reset. rewrite Hthis. cbn.
  rewrite lookup_insert_ne by exact Hcopy. rewrite Hthis. cbn.
  do 3 eexists. split; [reflexivity|]. split; [reflexivity|].
  split; [rewrite lookup_insert_ne by congruence; apply lookup_insert_eq|].
  split; [apply lookup_insert_eq|].
  repeat split.
  intros other H1 H2. rewrite !lookup_insert_ne by congruence. reflexivity.
Qed.

Lemma reset_leaves_copies_witness :
  sample_objects !! "a" = Some document_a
  /\ "c" <> "a"
  /\ exists objs1 objs2,
       Objects.copy_ctor "c" "a" sample_objects = Some objs1
       /\ Objects.reset "a" objs1 = Some objs2
       /\ objs2 !! "c" = Some document_a
       /\ objs2 !! "a" = Some null_document.
Proof.
  assert (Hca : "c" <> "a") by discriminate.
  split; [reflexivity|]. split; [exact Hca|].
  destruct (reset_leaves_copies sample_objects "a" "c" document_a eq_refl Hca)
    as (objs1 & objs2 & c & n & Hcopy & Hreset & _).
  exists objs1, objs2. split; [exact Hcopy|]. split; [exact Hreset|].
  vm_compute in Hcopy. injection Hcopy as <-.
  vm_compute in Hreset. injection Hreset as <-.
  split; reflexivity.
Defined.

(** X16. Move-assigning a document to itself is harmless: the temporary
    gives the pointer back, so the object store is unchanged and the
    document still reaches its state instead of being left null. *)
Theorem self_move_keeps_document
    (objs : gmap string Document.t) (a : string) (o : Document.t)
    (Ha : objs !! a = Some o) :
  exists objs',
    Objects.move_assign a a objs = Some objs'
    /\ objs' = objs
    /\ objs' !! a = Some o
    /\ (forall w x, Document.data o w = Some x ->
                    Document.isNull o w = Returns false w).
Proof.
  exists objs. split; [apply (move_assign_self objs a o Ha)|].
  split; [reflexivity|]. split; [exact Ha|].
  intros w x Hlive. apply data_live in Hlive.
  destruct Hlive as (l & Hd & _).
  unfold Document.isNull. rewrite Hd. reflexivity.
Qed.

Lemma self_move_keeps_document_witness :
  sample_objects !! "a" = Some document_a
  /\ Objects.move_assign "a" "a" sample_objects = Some sample_objects
  /\ sample_objects !! "a" = Some document_a.
Proof.
  split; [reflexivity|].
  destruct (self_move_keeps_document sample_objects "a" document_a eq_refl)
    as (objs' & Hrun & -> & Ha & _).
  split; assumption.
Defined.

(** ** Setters and their getters *)



(** ** Marking dirty *)

(** X5. [setDirtyIfProjectPartIsOutdated] does what [setDirty] does when
    the project part changed at or after the document's last sync, and
    nothing at all when it changed before. *)
Theorem setDirtyIfProjectPartIsOutdated_iff
    (this : Document.t) (w : World) (x : DocumentData.t)
    (Hlive : Document.data this w = Some x) :
  (ProjectPart.lastChangeTimePoint (DocumentData.projectPart x)
   >= DocumentData.lastProjectPartChangeTimePoint x ->
   exists w' x',
     Document.setDirtyIfProjectPartIsOutdated this w = Returns tt w'
     /\ Document.setDirty this w = Returns tt w'
     /\ Document.data this w' = Some x'
     /\ DocumentData.needsToBeReparsed x' = true)
  /\ (ProjectPart.lastChangeTimePoint (DocumentData.projectPart x)
      < DocumentData.lastProjectPartChangeTimePoint x ->
      Document.setDirtyIfProjectPartIsOutdated this w = Returns tt w).
Proof.
  apply data_live in Hlive. destruct Hlive as (l & Hd & Hx).
  unfold Document.setDirtyIfProjectPartIsOutdated, mbind, M_bind.
  rewrite (isProjectPartOutdated_live this l w x Hd Hx).
  split.
  - intros Hge. rewrite (proj2 (Z.geb_le _ _)) by lia. cbn [when].
    pose proof (setDirty_run this l w x Hd Hx) as Hrun. cbv zeta in Hrun.
    do 2 eexists. split; [exact Hrun|]. split; [exact Hrun|].
    split; [apply data_live; exists l; split; [exact Hd|];
            cbn [heap]; apply lookup_insert_eq|].
    reflexivity.
  - intros Hlt.
    destruct (_ >=? _) eqn:Hge; [apply Z.geb_le in Hge; lia|].
    reflexivity.
Qed.

Lemma setDirtyIfProjectPartIsOutdated_iff_witness :
  Document.data document_a sample_world = Some data_a_cpp
  /\ Document.setDirtyIfProjectPartIsOutdated document_a sample_world
     = Returns tt sample_world
  /\ exists w',
       Document.setDirtyIfProjectPartIsOutdated document_a world_in_step
       = Returns tt w'
       /\ Document.isNeedingReparse document_a w' = Returns true w'.
Proof.
  split; [reflexivity|].
  destruct (setDirtyIfProjectPartIsOutdated_iff document_a sample_world
              data_a_cpp eq_refl) as (_ & Hno).
  destruct (setDirtyIfProjectPartIsOutdated_iff document_a world_in_step
              data_in_step eq_refl) as (Hyes & _).
  split; [apply Hno; reflexivity|].
  destruct Hyes as (w' & x' & Hrun & _ & Hdata & Hflag).
  - vm_compute. discriminate.
  - exists w'. split; [exact Hrun|].
    apply data_live in Hdata. destruct Hdata as (l & Hd & Hx').
    rewrite (isNeedingReparse_live _ l w' x' Hd Hx'), Hflag. reflexivity.
Defined.

(** X18. [setDirty] writes the flag and the stamp of this document and
    reads the clock; everything else stays: the other fields, so a parse
    failure is not forgotten and the document is exactly as intact as
    before, the other documents, and the watched files. *)
Theorem setDirty_frame
    (this : Document.t) (l : positive) (w : World) (x : DocumentData.t)
    (Hd : Document.d this = Some l) (Hx : heap w !! l = Some x) :
  exists w' x',
    Document.setDirty this w = Returns tt w'
    /\ heap w' !! l = Some x'
    /\ x' = DocumentData.set_needsToBeReparsed true
              (DocumentData.set_needsToBeReparsedChangeTimePoint (clock w') x)
    /\ DocumentData.hasParseOrReparseFailed x'
       = DocumentData.hasParseOrReparseFailed x
    /\ DocumentData.dependedFilePaths x' = DocumentData.dependedFilePaths x
    /\ DocumentData.lastProjectPartChangeTimePoint x'
       = DocumentData.lastProjectPartChangeTimePoint x
    /\ (forall l', l' <> l -> heap w' !! l' = heap w !! l')
    /\ watchedFiles w' = watchedFiles w
    /\ fileSystem w' = fileSystem w
    /\ (exists b, Document.isIntact this w = Returns b w
                  /\ Document.isIntact this w' = Returns b w').
Proof.
  pose proof (setDirty_run this l w x Hd Hx) as Hrun. cbv zeta in Hrun.
  do 2 eexists. split; [exact Hrun|]. cbn [heap clock watchedFiles fileSystem].
  split; [apply lookup_insert_eq|].
  repeat split.
  - intros l' Hl'. apply lookup_insert_ne. congruence.
  - eexists. split; [apply (isIntact_live this l w x Hd Hx)|].
    match goal with
    | |- Document.isIntact _ ?w' = _ =>
        assert (Hx' : heap w' !! l
                      = Some (DocumentData.set_needsToBeReparsed true
                                (DocumentData.set_needsToBeReparsedChangeTimePoint
                                   (clock w') x)))
          by (cbn [heap clock]; apply lookup_insert_eq);
        rewrite (isIntact_live this l w' _ Hd Hx')
    end.
    reflexivity.
Qed.

Lemma setDirty_frame_witness :
  Document.d document_a = Some 1%positive
  /\ heap two_documents !! 1%positive = Some data_a_cpp
  /\ exists w',
       Document.setDirty document_a two_documents = Returns tt w'
       /\ Document.data document_b w' = Some data_in_step.
Proof.
  split; [reflexivity|]. split; [reflexivity|].
  destruct (setDirty_frame document_a 1%positive two_documents data_a_cpp
              eq_refl eq_refl) as (w' & x' & Hrun & _ & _ & _ & _ & _ & Hothers & _).
  exists w'. split; [exact Hrun|].
  unfold Document.data. cbn. rewrite Hothers by discriminate. reflexivity.
Defined.

(** ** More on incorporating results *)

(** X6. [incorporateUpdaterResult] never touches the identity of the
    document (file path, arguments, project part), its revision, its editor
    flags, its dirty stamp, or its index and translation unit; it leaves
    every other document, the clock and the file system alone, and it never
    removes a watched file. *)
Theorem incorporateUpdaterResult_frame
    (this : Document.t) (l : positive) (w : World) (x : DocumentData.t)
    (result : TranslationUnitUpdateResult.t)
    (Hd : Document.d this = Some l) (Hx : heap w !! l = Some x) :
  exists w' x',
    Document.incorporateUpdaterResult this result w = Returns tt w'
    /\ heap w' !! l = Some x'
    /\ DocumentData.filePath x' = DocumentData.filePath x
    /\ DocumentData.fileArguments x' = DocumentData.fileArguments x
    /\ DocumentData.projectPart x' = DocumentData.projectPart x
    /\ DocumentData.documentRevision x' = DocumentData.documentRevision x
    /\ DocumentData.isUsedByCurrentEditor x'
       = DocumentData.isUsedByCurrentEditor x
    /\ DocumentData.isVisibleInEditor x' = DocumentData.isVisibleInEditor x
    /\ DocumentData.needsToBeReparsedChangeTimePoint x'
       = DocumentData.needsToBeReparsedChangeTimePoint x
    /\ DocumentData.index x' = DocumentData.index x
    /\ DocumentData.translationUnit x' = DocumentData.translationUnit x
    /\ (DocumentData.needsToBeReparsed x = false ->
        DocumentData.needsToBeReparsed x' = false)
    /\ (forall l', l' <> l -> heap w' !! l' = heap w !! l')
    /\ clock w' = clock w /\ ticks w' = ticks w
    /\ fileSystem w' = fileSystem w
    /\ unsavedFiles w' = unsavedFiles w
    /\ watchedFiles w ⊆ watchedFiles w'.
Proof.
  exists (mkWorld (<[l := incorporated result x]> (heap w))
            (if TranslationUnitUpdateResult.hasParseOrReparseFailed result
             then watchedFiles w
             else watchedFiles w
                  ∪ DocumentData.dependedFilePaths (incorporated result x))
            (unsavedFiles w) (fileSystem w) (clock w) (ticks w)),
    (incorporated result x).
  split; [apply (incorporateUpdaterResult_run this l w x result Hd Hx)|].
  cbn [heap clock ticks fileSystem unsavedFiles watchedFiles].
  split; [apply lookup_insert_eq|].
  assert (Hfields :
    DocumentData.filePath (incorporated result x) = DocumentData.filePath x
    /\ DocumentData.fileArguments (incorporated result x)
       = DocumentData.fileArguments x
    /\ DocumentData.projectPart (incorporated result x)
       = DocumentData.projectPart x
    /\ DocumentData.documentRevision (incorporated result x)
       = DocumentData.documentRevision x
    /\ DocumentData.isUsedByCurrentEditor (incorporated result x)
       = DocumentData.isUsedByCurrentEditor x
    /\ DocumentData.isVisibleInEditor (incorporated result x)
       = DocumentData.isVisibleInEditor x
    /\ DocumentData.needsToBeReparsedChangeTimePoint (incorporated result x)
       = DocumentData.needsToBeReparsedChangeTimePoint x
    /\ DocumentData.index (incorporated result x) = DocumentData.index x
    /\ DocumentData.translationUnit (incorporated result x)
       = DocumentData.translationUnit x
    /\ (DocumentData.needsToBeReparsed x = false ->
        DocumentData.needsToBeReparsed (incorporated result x) = false)).
  { unfold incorporated.
    destruct result as [[] [] point [] stamp deps]; cbn;
      try case_bool_decide; cbn; repeat split; auto. }
  destruct Hfields as (? & ? & ? & ? & ? & ? & ? & ? & ? & ?).
  repeat (split; [assumption|]).
  split; [intros l' Hl'; apply lookup_insert_ne; congruence|].
  repeat (split; [reflexivity|]).
  destruct (TranslationUnitUpdateResult.hasParseOrReparseFailed result);
    set_solver.
Qed.

Lemma incorporateUpdaterResult_frame_witness :
  Document.d document_a = Some 1%positive
  /\ heap two_documents !! 1%positive = Some data_a_cpp
  /\ exists w',
       Document.incorporateUpdaterResult document_a reparse_result
         two_documents = Returns tt w'
       /\ Document.data document_b w' = Some data_in_step
       /\ watchedFiles two_documents ⊆ watchedFiles w'.
Proof.
  split; [reflexivity|]. split; [reflexivity|].
  destruct (incorporateUpdaterResult_frame document_a 1%positive two_documents
              data_a_cpp reparse_result eq_refl eq_refl)
    as (w' & x' & Hrun & H).
  exists w'. split; [exact Hrun|].
  decompose [and] H.
  split; [|assumption].
  unfold Document.data. cbn.
  match goal with Hothers : forall l', l' <> _ -> _ |- _ =>
    rewrite Hothers by discriminate end.
  reflexivity.
Defined.

(** X7. After a result that did not fail is incorporated, every dependency
    of the document is a watched file, also when the dependencies were not
    replaced; after a failed result the watched files are as before. *)
Theorem incorporateUpdaterResult_watches_dependencies
    (this : Document.t) (w : World) (x : DocumentData.t)
    (result : TranslationUnitUpdateResult.t)
    (Hlive : Document.data this w = Some x) :
  exists w' x',
    Document.incorporateUpdaterResult this result w = Returns tt w'
    /\ Document.data this w' = Some x'
    /\ (TranslationUnitUpdateResult.hasParseOrReparseFailed result = false ->
        DocumentData.dependedFilePaths x' ⊆ watchedFiles w'
        /\ watchedFiles w'
           = watchedFiles w ∪ DocumentData.dependedFilePaths x')
    /\ (TranslationUnitUpdateResult.hasParseOrReparseFailed result = true ->
        watchedFiles w' = watchedFiles w
        /\ DocumentData.dependedFilePaths x'
           = DocumentData.dependedFilePaths x).
Proof.
  apply data_live in Hlive. destruct Hlive as (l & Hd & Hx).
  do 2 eexists.
  split; [apply (incorporateUpdaterResult_run this l w x result Hd Hx)|].
  split; [apply data_live; exists l; split; [exact Hd|];
          cbn [heap]; apply lookup_insert_eq|].
  cbn [watchedFiles].
  split; intros Hflag; rewrite Hflag.
  - split; [set_solver|reflexivity].
  - split; [reflexivity|]. unfold incorporated. rewrite Hflag. reflexivity.
Qed.

Lemma incorporateUpdaterResult_watches_dependencies_witness :
  Document.data document_a sample_world = Some data_a_cpp
  /\ exists w',
       Document.incorporateUpdaterResult document_a reparse_result
         sample_world = Returns tt w'
       /\ "/b.h" ∈ watchedFiles w'.
Proof.
  split; [reflexivity|].
  destruct (incorporateUpdaterResult_watches_dependencies document_a
              sample_world data_a_cpp reparse_result eq_refl)
    as (w' & x' & Hrun & _ & Hok & _).
  exists w'. split; [exact Hrun|].
  vm_compute in Hrun. injection Hrun as <-.
  vm_compute. reflexivity.
Defined.

(** X8. A successful result that carries a parse time point moves the
    document's last-synced time point there: afterwards the project part is
    outdated exactly when it changed at or after that parse, so not when the
    parse is strictly later than the change.  Without a parse time point
    the answer of [isProjectPartOutdated] is as before. *)
Theorem incorporateUpdaterResult_syncs_project_part
    (this : Document.t) (w : World) (x : DocumentData.t)
    (result : TranslationUnitUpdateResult.t)
    (Hlive : Document.data this w = Some x)
    (Hok : TranslationUnitUpdateResult.hasParseOrReparseFailed result = false) :
  exists w',
    Document.incorporateUpdaterResult this result w = Returns tt w'
    /\ (TranslationUnitUpdateResult.parseTimePointIsSet result = true ->
        Document.lastProjectPartChangeTimePoint this w'
        = Returns (TranslationUnitUpdateResult.parseTimePoint result) w'
        /\ Document.isProjectPartOutdated this w'
           = Returns (ProjectPart.lastChangeTimePoint
                        (DocumentData.projectPart x)
                      >=? TranslationUnitUpdateResult.parseTimePoint result) w'
        /\ (ProjectPart.lastChangeTimePoint (DocumentData.projectPart x)
            < TranslationUnitUpdateResult.parseTimePoint result ->
            Document.isProjectPartOutdated this w' = Returns false w'))
    /\ (TranslationUnitUpdateResult.parseTimePointIsSet result = false ->
        Document.isProjectPartOutdated this w'
        = Returns (ProjectPart.lastChangeTimePoint
                     (DocumentData.projectPart x)
                   >=? DocumentData.lastProjectPartChangeTimePoint x) w').
Proof.
  apply data_live in Hlive. destruct Hlive as (l & Hd & Hx).
  eexists.
  split; [apply (incorporateUpdaterResult_run this l w x result Hd Hx)|].
  match goal with
  | |- context [Document.isProjectPartOutdated _ ?w'] =>
      assert (Hx' : heap w' !! l = Some (incorporated result x))
        by (cbn [heap]; apply lookup_insert_eq);
      rewrite !(isProjectPartOutdated_live this l w' _ Hd Hx')
  end.
  assert (Hpart : DocumentData.projectPart (incorporated result x)
                  = DocumentData.projectPart x).
  { unfold incorporated. rewrite Hok.
    destruct result as [failed [] point [] stamp deps]; cbn;
      try case_bool_decide; reflexivity. }
  split; intros Hset.
  - assert (Hlast : DocumentData.lastProjectPartChangeTimePoint
                      (incorporated result x)
                    = TranslationUnitUpdateResult.parseTimePoint result).
    { unfold incorporated. rewrite Hok, Hset.
      destruct result as [failed isSet point [] stamp deps]; cbn;
        try case_bool_decide; reflexivity. }
    rewrite Hpart, Hlast. split; [|split; [reflexivity|]].
    + destruct this as [d0]; cbn in Hd; subst d0. exec.
      rewrite Hlast. reflexivity.
    + intros Hlater. f_equal.
      destruct (_ >=? _) eqn:Hge; [apply Z.geb_le in Hge; lia|reflexivity].
  - assert (Hlast : DocumentData.lastProjectPartChangeTimePoint
                      (incorporated result x)
                    = DocumentData.lastProjectPartChangeTimePoint x).
    { unfold incorporated. rewrite Hok, Hset.
      destruct result as [failed isSet point [] stamp deps]; cbn;
        try case_bool_decide; reflexivity. }
    rewrite Hpart, Hlast. reflexivity.
Qed.

Lemma incorporateUpdaterResult_syncs_project_part_witness :
  Document.data document_a world_in_step = Some data_in_step
  /\ TranslationUnitUpdateResult.hasParseOrReparseFailed parse_result = false
  /\ Document.isProjectPartOutdated document_a world_in_step
     = Returns true world_in_step
  /\ exists w',
       Document.incorporateUpdaterResult document_a parse_result world_in_step
       = Returns tt w'
       /\ Document.isProjectPartOutdated document_a w' = Returns false w'.
Proof.
  split; [reflexivity|]. split; [reflexivity|].
  split; [vm_compute; reflexivity|].
  destruct (incorporateUpdaterResult_syncs_project_part document_a
              world_in_step data_in_step parse_result eq_refl eq_refl)
    as (w' & Hrun & Hset & _).
  exists w'. split; [exact Hrun|].
  destruct (Hset eq_refl) as (_ & _ & Hlater).
  apply Hlater. reflexivity.
Defined.

(** X9. A result that did not fail overwrites an earlier failure: whatever
    the document's failure flag was, afterwards the document is intact
    exactly when its file exists. *)
Theorem incorporateUpdaterResult_recovers
    (this : Document.t) (w : World) (x : DocumentData.t)
    (result : TranslationUnitUpdateResult.t)
    (Hlive : Document.data this w = Some x)
    (Hok : TranslationUnitUpdateResult.hasParseOrReparseFailed result = false) :
  exists w' x',
    Document.incorporateUpdaterResult this result w = Returns tt w'
    /\ Document.data this w' = Some x'
    /\ DocumentData.hasParseOrReparseFailed x' = false
    /\ Document.isIntact this w'
       = Returns (bool_decide (DocumentData.filePath x ∈ fileSystem w)) w'.
Proof.
  apply data_live in Hlive. destruct Hlive as (l & Hd & Hx).
  do 2 eexists.
  split; [apply (incorporateUpdaterResult_run this l w x result Hd Hx)|].
  match goal with
  | |- context [Document.isIntact _ ?w'] =>
      assert (Hx' : heap w' !! l = Some (incorporated result x))
        by (cbn [heap]; apply lookup_insert_eq);
      rewrite (isIntact_live this l w' _ Hd Hx')
  end.
  split; [apply data_live; eauto|].
  assert (Hfields :
    DocumentData.hasParseOrReparseFailed (incorporated result x) = false
    /\ DocumentData.filePath (incorporated result x) = DocumentData.filePath x).
  { unfold incorporated. rewrite Hok.
    destruct result as [failed [] point [] stamp deps]; cbn;
      try case_bool_decide; split; reflexivity. }
  destruct Hfields as [Hflag Hpath].
  split; [exact Hflag|].
  rewrite Hflag, Hpath. cbn [fileSystem negb]. rewrite andb_true_r.
  reflexivity.
Qed.

Lemma incorporateUpdaterResult_recovers_witness :
  Document.data document_a sample_world = Some data_a_cpp
  /\ TranslationUnitUpdateResult.hasParseOrReparseFailed failed_result = true
  /\ TranslationUnitUpdateResult.hasParseOrReparseFailed parse_result = false
  /\ exists w1 w2,
       Document.incorporateUpdaterResult document_a failed_result sample_world
       = Returns tt w1
       /\ Document.isIntact document_a w1 = Returns false w1
       /\ Document.incorporateUpdaterResult document_a parse_result w1
          = Returns tt w2
       /\ Document.isIntact document_a w2 = Returns true w2.
Proof.
  split; [reflexivity|]. split; [reflexivity|]. split; [reflexivity|].
  set (x1 := DocumentData.set_needsToBeReparsed false
               (DocumentData.set_hasParseOrReparseFailed true data_a_cpp)).
  set (w1 := set_heap (<[1%positive := x1]> (heap sample_world)) sample_world).
  assert (Hfail : Document.incorporateUpdaterResult document_a failed_result
                    sample_world = Returns tt w1)
    by (vm_compute; reflexivity).
  assert (Hlive : Document.data document_a w1 = Some x1)
    by (vm_compute; reflexivity).
  destruct (incorporateUpdaterResult_recovers document_a w1 x1 parse_result
              Hlive eq_refl) as (w2 & x2 & Hrun & _ & _ & Hintact).
  exists w1, w2. split; [exact Hfail|].
  split; [vm_compute; reflexivity|]. split; [exact Hrun|].
  rewrite Hintact. f_equal.
Defined.

(** X17. [setHasParseOrReparseFailed] decides whether a live document whose
    file exists is intact: with [true] it is not, with [false] it is. *)
Theorem setHasParseOrReparseFailed_isIntact
    (this : Document.t) (w : World) (x : DocumentData.t) (hasFailed : bool)
    (Hlive : Document.data this w = Some x) :
  exists w',
    Document.setHasParseOrReparseFailed this hasFailed w = Returns tt w'
    /\ Document.isIntact this w'
       = Returns (bool_decide (DocumentData.filePath x ∈ fileSystem w)
                  && negb hasFailed) w'
    /\ Document.isNeedingReparse this w'
       = Returns (DocumentData.needsToBeReparsed x) w'.
Proof.
  apply data_live in Hlive. destruct Hlive as (l & Hd & Hx).
  set (x' := DocumentData.set_hasParseOrReparseFailed hasFailed x).
  set (w' := set_heap (<[l := x']> (heap w)) w).
  assert (Hx' : heap w' !! l = Some x')
    by (subst w'; cbn [heap set_heap]; apply lookup_insert_eq).
  exists w'. split.
  - destruct this as [d0]; cbn in Hd; subst d0. exec. reflexivity.
  - rewrite (isIntact_live this l w' x' Hd Hx'),
      (isNeedingReparse_live this l w' x' Hd Hx').
    split; reflexivity.
Qed.

Lemma setHasParseOrReparseFailed_isIntact_witness :
  Document.data document_a sample_world = Some data_a_cpp
  /\ exists w',
       Document.setHasParseOrReparseFailed document_a true sample_world
       = Returns tt w'
       /\ Document.isIntact document_a w' = Returns false w'.
Proof.
  split; [reflexivity|].
  destruct (setHasParseOrReparseFailed_isIntact document_a sample_world
              data_a_cpp true eq_refl) as (w' & Hrun & Hintact & _).
  exists w'. split; [exact Hrun|].
  rewrite Hintact. f_equal; apply andb_false_r.
Defined.

(** ** Dependencies across operations *)

(** [setDirtyIfDependencyIsMet] on a live document, as one equation. *)
Lemma setDirtyIfDependencyIsMet_live
    (this : Document.t) (l : positive) (w : World) (x : DocumentData.t)
    (p : Utf8String) :
  Document.d this = Some l -> heap w !! l = Some x ->
  Document.setDirtyIfDependencyIsMet this p w
  = if bool_decide (p ∈ DocumentData.dependedFilePaths x)
       && (negb (bool_decide (p = DocumentData.filePath x))
           || bool_decide (DocumentData.filePath x ∈ fileSystem w))
    then Document.setDirty this w
    else Returns tt w.
Proof.
  intros Hd Hx. destruct this as [d0]; cbn in Hd; subst d0.
  unfold Document.setDirtyIfDependencyIsMet,
    Document.isMainFileAndExistsOrIsOtherFile, Document.deref,
    QFileInfo_exists, when.
  repeat (crunch; rewrite ?Hx).
  destruct (bool_decide (p ∈ DocumentData.dependedFilePaths x));
    repeat (crunch; rewrite ?Hx); [|reflexivity].
  destruct (bool_decide (p = DocumentData.filePath x));
    repeat (crunch; rewrite ?Hx); [|reflexivity].
  destruct (bool_decide (DocumentData.filePath x ∈ fileSystem w));
    reflexivity.
Qed.



(** X19. The stamp comparison tells a later [setDirty] only by its time
    point: when the clock has not advanced between the stamp a request
    captured and a [setDirty] that follows, the successful reparse result
    for that request clears [needsToBeReparsed] although the document was
    marked dirty after the request was built. *)
Theorem same_tick_dirty_mark_is_lost
    (this : Document.t) (w : World) (x : DocumentData.t)
    (result : TranslationUnitUpdateResult.t)
    (Hlive : Document.data this w = Some x)
    (Hstamp : DocumentData.needsToBeReparsedChangeTimePoint x = clock w)
    (Htick : hd 0%N (ticks w) = 0%N)
    (Hok : TranslationUnitUpdateResult.hasParseOrReparseFailed result = false)
    (Hreparsed : TranslationUnitUpdateResult.reparsed result = true) :
  exists input w1 x1 w2 x2,
    Document.createUpdateInput this w = Returns input w
    /\ Document.setDirty this w = Returns tt w1
    /\ Document.data this w1 = Some x1
    /\ DocumentData.needsToBeReparsed x1 = true
    /\ (TranslationUnitUpdateResult.needsToBeReparsedChangeTimePoint result
        = TranslationUnitUpdateInput.needsToBeReparsedChangeTimePoint input ->
        Document.incorporateUpdaterResult this result w1 = Returns tt w2
        /\ Document.data this w2 = Some x2
        /\ DocumentData.needsToBeReparsed x2 = false).
Proof.
  apply data_live in Hlive. destruct Hlive as (l & Hd & Hx).
  destruct (createUpdateInput_live this l w x Hd Hx)
    as (input & Hinput & Hcaptured).
  pose proof (setDirty_run this l w x Hd Hx) as Hdirty. cbv zeta in Hdirty.
  set (x1 := DocumentData.set_needsToBeReparsed true _) in Hdirty.
  set (w1 := mkWorld _ _ _ _ _ _) in Hdirty.
  assert (Hx1 : heap w1 !! l = Some x1)
    by (subst w1; cbn [heap]; apply lookup_insert_eq).
  pose proof (incorporateUpdaterResult_run this l w1 x1 result Hd Hx1)
    as Hrun.
  exists input, w1, x1. eexists _, _.
  split; [exact Hinput|]. split; [exact Hdirty|].
  split; [apply data_live; eauto|]. split; [reflexivity|].
  intros Hsame. split; [exact Hrun|].
  split; [apply data_live; exists l; split; [exact Hd|];
          cbn [heap]; apply lookup_insert_eq|].
  unfold incorporated. rewrite Hok, Hreparsed.
  rewrite bool_decide_eq_true_2.
  - destruct (_ || _); reflexivity.
  - rewrite Hsame, Hcaptured.
    destruct (_ || _), (TranslationUnitUpdateResult.parseTimePointIsSet result);
      subst x1; cbn; rewrite Htick; cbn; lia.
Qed.

Lemma same_tick_dirty_mark_is_lost_witness :
  Document.data document_a world_in_step = Some data_in_step
  /\ DocumentData.needsToBeReparsedChangeTimePoint data_in_step
     = clock world_in_step
  /\ hd 0%N (ticks world_in_step) = 0%N
  /\ exists w1 w2,
       Document.setDirty document_a world_in_step = Returns tt w1
       /\ Document.incorporateUpdaterResult document_a
            (TranslationUnitUpdateResult.mk false false 0 true 5 ∅) w1
          = Returns tt w2
       /\ Document.isNeedingReparse document_a w2 = Returns false w2.
Proof.
  split; [reflexivity|]. split; [reflexivity|]. split; [reflexivity|].
  destruct (same_tick_dirty_mark_is_lost document_a world_in_step data_in_step
              (TranslationUnitUpdateResult.mk false false 0 true 5 ∅)
              eq_refl eq_refl eq_refl eq_refl eq_refl)
    as (input & w1 & x1 & w2 & x2 & Hinput & Hdirty & _ & _ & Hlost).
  vm_compute in Hinput. injection Hinput as <-.
  destruct (Hlost eq_refl) as (Hrun & Hdata & Hflag).
  exists w1, w2. split; [exact Hdirty|]. split; [exact Hrun|].
  apply data_live in Hdata. destruct Hdata as (l & Hd & Hx2).
  rewrite (isNeedingReparse_live _ l w2 x2 Hd Hx2), Hflag. reflexivity.
Defined.

(** ** Parsing and reparsing through the engine *)





(** ** Dependencies, equality and the stamp invariant *)

(** X12. [dependedFilePaths] hands out the dependencies of a live document
    only while its file exists; once the file is gone it throws
    [DocumentFileDoesNotExistException] for the document's path.  Neither
    way does it change anything. *)
Theorem dependedFilePaths_checks_file
    (this : Document.t) (w : World) (x : DocumentData.t)
    (Hlive : Document.data this w = Some x) :
  (DocumentData.filePath x ∈ fileSystem w ->
   Document.dependedFilePaths this w
   = Returns (DocumentData.dependedFilePaths x) w)
  /\ (DocumentData.filePath x ∉ fileSystem w ->
      Document.dependedFilePaths this w
      = Throws (DocumentFileDoesNotExistException (DocumentData.filePath x)) w).
Proof.
  live this Hlive. split; intros Hfile; exec.
  - rewrite (bool_decide_eq_true_2 _ Hfile). exec. reflexivity.
  - rewrite (bool_decide_eq_false_2 _ Hfile). exec. reflexivity.
Qed.

Lemma dependedFilePaths_checks_file_witness :
  Document.data document_a world_without_a_cpp = Some data_a_cpp
  /\ Document.dependedFilePaths document_a world_without_a_cpp
     = Throws (DocumentFileDoesNotExistException "/a.cpp") world_without_a_cpp
  /\ Document.dependedFilePaths document_a sample_world
     = Returns {[ "/a.cpp"; "/a.h" ]} sample_world.
Proof.
  split; [reflexivity|].
  destruct (dependedFilePaths_checks_file document_a world_without_a_cpp
              data_a_cpp eq_refl) as (_ & Hgone).
  destruct (dependedFilePaths_checks_file document_a sample_world
              data_a_cpp eq_refl) as (Hthere & _).
  split.
  - apply Hgone. vm_compute. intros H. discriminate H.
  - apply Hthere. vm_compute. reflexivity.
Defined.

(** X13. Two live documents compare equal exactly when their file paths and
    their project part identifiers agree; revision, flags, time points and
    dependencies play no part, the comparison changes nothing, and a
    document equals itself. *)
Theorem equal_iff
    (first second : Document.t) (w : World) (x y : DocumentData.t)
    (Hfirst : Document.data first w = Some x)
    (Hsecond : Document.data second w = Some y) :
  exists b,
    Document.equal first second w = Returns b w
    /\ Document.equal second first w = Returns b w
    /\ (b = true <->
        DocumentData.filePath x = DocumentData.filePath y
        /\ ProjectPart.projectPartId (DocumentData.projectPart x)
           = ProjectPart.projectPartId (DocumentData.projectPart y))
    /\ Document.equal first first w = Returns true w.
Proof.
  apply data_live in Hfirst. destruct Hfirst as (l & Hd & Hx).
  apply data_live in Hsecond. destruct Hsecond as (l' & Hd' & Hy).
  destruct first as [d0]; cbn in Hd; subst d0.
  destruct second as [d0]; cbn in Hd'; subst d0.
  exists (bool_decide (DocumentData.filePath x = DocumentData.filePath y)
          && bool_decide
               (ProjectPart.projectPartId (DocumentData.projectPart x)
                = ProjectPart.projectPartId (DocumentData.projectPart y))).
  split; [|split; [|split]].
  - exec. case_bool_decide; exec; reflexivity.
  - exec. case_bool_decide as Hp; exec.
    + rewrite (bool_decide_eq_true_2 _ (eq_sym Hp)). cbn [andb].
      f_equal. apply bool_decide_ext. split; congruence.
    + rewrite bool_decide_eq_false_2 by congruence. reflexivity.
  - rewrite andb_true_iff, !bool_decide_eq_true. reflexivity.
  - exec. rewrite bool_decide_eq_true_2 by reflexivity. exec.
    rewrite bool_decide_eq_true_2 by reflexivity. reflexivity.
Qed.

Lemma equal_iff_witness :
  Document.data document_a two_documents = Some data_a_cpp
  /\ Document.data document_b two_documents = Some data_in_step
  /\ Document.equal document_a document_b two_documents
     = Returns false two_documents
  /\ Document.equal document_a document_a two_documents
     = Returns true two_documents.
Proof.
  split; [reflexivity|]. split; [reflexivity|].
  destruct (equal_iff document_a document_b two_documents data_a_cpp
              data_in_step eq_refl eq_refl) as (b & Hrun & _ & Hiff & Hself).
  split; [|exact Hself].
  rewrite Hrun. f_equal. destruct b; [|reflexivity].
  destruct (proj1 Hiff eq_refl) as [Hpath _]. discriminate Hpath.
Defined.

(** Writing the cell of a live document keeps the stamps in the past when
    the new stamp is not later than the new clock reading and the clock did
    not run backwards. *)
Lemma stamps_in_past_insert
    (w : World) (l : positive) (x' : DocumentData.t)
    (watched : gset string) (now : Z) (future : list N) :
  stamps_in_past w -> clock w <= now ->
  DocumentData.needsToBeReparsedChangeTimePoint x' <= now ->
  stamps_in_past
    (mkWorld (<[l := x']> (heap w)) watched (unsavedFiles w) (fileSystem w)
       now future).
Proof.
  intros Hinv Hclock Hnew l' y. cbn [heap clock].
  destruct (decide (l = l')) as [<-|Hne].
  - rewrite lookup_insert_eq. intros [= <-]. exact Hnew.
  - rewrite lookup_insert_ne by exact Hne. intros Hy.
    specialize (Hinv l' y Hy). lia.
Qed.

Lemma stamps_in_past_setDirty (this : Document.t) (w w' : World) :
  stamps_in_past w -> Document.setDirty this w = Returns tt w' ->
  stamps_in_past w'.
Proof.
  intros Hinv Hrun.
  destruct (Document.d this) as [l|] eqn:Hd.
  - destruct (heap w !! l) as [x|] eqn:Hx.
    + rewrite (setDirty_run this l w x Hd Hx) in Hrun.
      injection Hrun as <-.
      apply stamps_in_past_insert; [exact Hinv|lia|cbn; lia].
    + destruct this as [d0]; cbn in Hd; subst d0.
      revert Hrun. exec. discriminate.
  - destruct this as [d0]; cbn in Hd; subst d0.
    revert Hrun. exec. discriminate.
Qed.

Lemma stamps_in_past_incorporate
    (this : Document.t) (result : TranslationUnitUpdateResult.t)
    (w w' : World) :
  stamps_in_past w ->
  Document.incorporateUpdaterResult this result w = Returns tt w' ->
  stamps_in_past w'.
Proof.
  intros Hinv Hrun.
  destruct (Document.d this) as [l|] eqn:Hd.
  - destruct (heap w !! l) as [x|] eqn:Hx.
    + rewrite (incorporateUpdaterResult_run this l w x result Hd Hx) in Hrun.
      injection Hrun as <-.
      apply stamps_in_past_insert; [exact Hinv|lia|].
      pose proof (Hinv l x Hx) as Hold.
      unfold incorporated.
      destruct result as [[] [] point [] stamp deps]; cbn;
        try case_bool_decide; cbn; exact Hold.
    + destruct this as [d0]; cbn in Hd; subst d0.
      revert Hrun. exec. discriminate.
  - destruct this as [d0]; cbn in Hd; subst d0.
    revert Hrun. exec. discriminate.
Qed.

Lemma stamps_in_past_parse
    (engine : Engine) (this : Document.t) (w w' : World) :
  stamps_in_past w -> Document.parse engine this w = Returns tt w' ->
  stamps_in_past w'.
Proof.
  intros Hinv Hrun.
  destruct (Document.d this) as [l|] eqn:Hd.
  - destruct (heap w !! l) as [x|] eqn:Hx.
    + destruct (parse_live engine this l w x Hd Hx) as (input & _ & Hparse).
      cbv zeta in Hparse. rewrite Hparse in Hrun.
      revert Hrun. apply stamps_in_past_incorporate.
      unfold set_heap.
      apply stamps_in_past_insert; [exact Hinv|lia|].
      exact (Hinv l x Hx).
    + destruct this as [d0]; cbn in Hd; subst d0.
      revert Hrun. unfold Document.parse. exec. discriminate.
  - destruct this as [d0]; cbn in Hd; subst d0.
    revert Hrun. unfold Document.parse. exec. discriminate.
Qed.

(** X14. No operation stamps a document with a time point later than the
    clock: when every dirty stamp is at or before the last clock reading,
    this still holds after a document is constructed, marked dirty
    (directly or through either condition), parsed, reparsed, or has a
    result incorporated. *)
Theorem stamps_in_past_preserved (w : World) (Hinv : stamps_in_past w) :
  (forall this w', Document.setDirty this w = Returns tt w' ->
                   stamps_in_past w')
  /\ (forall this p w',
        Document.setDirtyIfDependencyIsMet this p w = Returns tt w' ->
        stamps_in_past w')
  /\ (forall this w',
        Document.setDirtyIfProjectPartIsOutdated this w = Returns tt w' ->
        stamps_in_past w')
  /\ (forall this result w',
        Document.incorporateUpdaterResult this result w = Returns tt w' ->
        stamps_in_past w')
  /\ (forall engine this w',
        Document.parse engine this w = Returns tt w' -> stamps_in_past w')
  /\ (forall engine this w',
        Document.reparse engine this w = Returns tt w' -> stamps_in_past w')
  /\ (forall filePath projectPart fileArguments check this w',
        Document.ctor filePath projectPart fileArguments check w
        = Returns this w' ->
        stamps_in_past w').
Proof.
  split; [intros this w'; apply stamps_in_past_setDirty; exact Hinv|].
  split.
  { intros this p w' Hrun.
    destruct (Document.d this) as [l|] eqn:Hd.
    - destruct (heap w !! l) as [x|] eqn:Hx.
      + rewrite (setDirtyIfDependencyIsMet_live this l w x p Hd Hx) in Hrun.
        destruct (_ && _).
        * eapply stamps_in_past_setDirty; eauto.
        * injection Hrun as <-. exact Hinv.
      + destruct this as [d0]; cbn in Hd; subst d0.
        revert Hrun. exec. discriminate.
    - destruct this as [d0]; cbn in Hd; subst d0.
      revert Hrun. exec. discriminate. }
  split.
  { intros this w' Hrun.
    destruct (Document.d this) as [l|] eqn:Hd.
    - destruct (heap w !! l) as [x|] eqn:Hx.
      + unfold Document.setDirtyIfProjectPartIsOutdated, mbind, M_bind in Hrun.
        rewrite (isProjectPartOutdated_live this l w x Hd Hx) in Hrun.
        destruct (_ >=? _); cbn [when] in Hrun.
        * eapply stamps_in_past_setDirty; eauto.
        * injection Hrun as <-. exact Hinv.
      + destruct this as [d0]; cbn in Hd; subst d0.
        revert Hrun. exec. discriminate.
    - destruct this as [d0]; cbn in Hd; subst d0.
      revert Hrun. exec. discriminate. }
  split; [intros this result w'; apply stamps_in_past_incorporate;
          exact Hinv|].
  split; [intros engine this w'; apply stamps_in_past_parse; exact Hinv|].
  split; [intros engine this w'; apply (stamps_in_past_parse engine);
          exact Hinv|].
  intros filePath projectPart fileArguments check this w'.
  unfold Document.ctor, Document.DocumentData_ctor, Document.make_shared,
    steady_clock_now, when.
  crunch.
  assert (Hnew : stamps_in_past
            (set_heap
               (<[fresh (dom (heap w)) :=
                    DocumentData.mk filePath fileArguments projectPart
                      (clock w + Z.of_N (hd 0%N (ticks w))) None None
                      {[ filePath ]} 0%N
                      (clock w + Z.of_N (hd 0%N (ticks w)))
                      false false false false]> (heap w))
               (set_clock (clock w + Z.of_N (hd 0%N (ticks w)))
                  (tl (ticks w)) w))).
  { unfold set_heap, set_clock. cbn.
    apply stamps_in_past_insert; [exact Hinv|lia|cbn; lia]. }
  destruct (bool_decide (check = CheckIfFileExists)).
  - exec. cbn [DocumentData.filePath].
    destruct (bool_decide (filePath ∈ fileSystem w)); exec.
    + intros [= _ <-]. exact Hnew.
    + discriminate.
  - crunch. intros [= _ <-]. exact Hnew.
Qed.

Lemma stamps_in_past_preserved_witness :
  stamps_in_past sample_world
  /\ exists w',
       Document.setDirty document_a sample_world = Returns tt w'
       /\ stamps_in_past w'.
Proof.
  assert (Hinv : stamps_in_past sample_world).
  { intros l x. unfold sample_world. cbn [heap clock].
    rewrite lookup_singleton_Some. intros [_ <-]. cbn. lia. }
  split; [exact Hinv|].
  destruct (stamps_in_past_preserved sample_world Hinv) as (Hdirty & _).
  eexists. split; [vm_compute; reflexivity|].
  apply (Hdirty document_a). vm_compute. reflexivity.
Defined.

(** X20. [createUpdater] changes nothing and hands the updater the request
    [createUpdateInput] builds together with the very index and translation
    unit that [translationUnit] exposes, so the updater works on the same
    parse state [parse] and [reparse] work on. *)
Theorem createUpdater_consistent
    (this : Document.t) (w : World) (x : DocumentData.t)
    (Hlive : Document.data this w = Some x) :
  exists updater input unit,
    Document.createUpdater this w = Returns updater w
    /\ Document.createUpdateInput this w = Returns input w
    /\ Document.translationUnit this w = Returns unit w
    /\ TranslationUnitUpdater.updateInput updater = input
    /\ TranslationUnitUpdater.index updater = TranslationUnit.index unit
    /\ TranslationUnitUpdater.cxTranslationUnit updater
       = TranslationUnit.cxTranslationUnit unit
    /\ TranslationUnit.filePath unit = DocumentData.filePath x
    /\ TranslationUnitUpdateInput.filePath input = DocumentData.filePath x.
Proof.
  live this Hlive.
  do 3 eexists.
  split; [exec; reflexivity|]. split; [exec; reflexivity|].
  split; [exec; reflexivity|]. repeat split.
Qed.

Lemma createUpdater_consistent_witness :
  Document.data document_a sample_world = Some data_a_cpp
  /\ exists updater,
       Document.createUpdater document_a sample_world
       = Returns updater sample_world
       /\ TranslationUnitUpdateInput.reparseNeeded
            (TranslationUnitUpdater.updateInput updater) = true.
Proof.
  split; [reflexivity|].
  destruct (createUpdater_consistent document_a sample_world data_a_cpp
              eq_refl) as (updater & input & unit & Hrun & Hinput & _ & Hsame & _).
  exists updater. split; [exact Hrun|].
  rewrite Hsame. vm_compute in Hinput. injection Hinput as <-. reflexivity.
Defined.
